(** * gosem: DLMS/COSEM client library, shallow embedding

    The Go packages [axdr], [dlms] and [dlmsclient] are embedded as Rocq
    modules of the same names.  Bytes, [uint16], [uint32] and [int] values
    are integers of [Z]; every Go conversion that truncates ([byte(x)],
    [uint16(x)], [x++] on a [uint32]) is written out as a remainder.  A
    [bytes.Buffer] is the list of bytes written so far.  A Go function that
    returns [(out, err)] returns the same pair here, with [err : option
    error] and [None] for [nil]; a function that writes through a pointer
    argument also returns the new value of the pointee. *)

From Stdlib Require Import ZArith Lia Bool Ascii String.
From stdpp Require Import base list strings gmap.

Open Scope Z_scope.

(** ** Go conversions and small helpers *)

(** [byte(x)]. *)
Definition byte (x : Z) : Z := x mod 256.

(** [uint16(x)]. *)
Definition uint16 (x : Z) : Z := x mod 65536.

(** [uint32(x)]. *)
Definition uint32 (x : Z) : Z := x mod 4294967296.

(** [len(x)] of a slice. *)
Definition len {A} (l : list A) : Z := Z.of_nat (length l).

(** [binary.BigEndian.PutUint16] on a two-byte slice. *)
Definition PutUint16 (v : Z) : list Z := [(uint16 v / 256) mod 256; uint16 v mod 256].

(** [binary.BigEndian.PutUint32] on a four-byte slice. *)
Definition PutUint32 (v : Z) : list Z :=
  [(uint32 v / 16777216) mod 256; (uint32 v / 65536) mod 256;
   (uint32 v / 256) mod 256; uint32 v mod 256].

(** The bytes of a Go string. *)
Fixpoint bytesOfString (s : string) : list Z :=
  match s with
  | EmptyString => []
  | String c r => Z.of_N (N_of_ascii c) :: bytesOfString r
  end.

(** [string(b)] for a byte slice [b]. *)
Fixpoint stringOfBytes (b : list Z) : string :=
  match b with
  | [] => EmptyString
  | x :: r => String (ascii_of_N (Z.to_N (byte x))) (stringOfBytes r)
  end.

(** Modelled from the spec: the library's tagged error type is not in the
    sources.  These are the kinds of codec failure the spec lists;
    [NestingTooDeep] stands for the bound of 16 on the nesting depth, for
    which the spec names no kind. *)
Inductive CodecErrorKind : Type :=
| UnknownTag
| Truncated
| LengthOverflow
| InvalidBoolean
| InvalidDateTime
| TagMismatch
| NestingTooDeep.

(** Modelled from the spec: the error codes of [dlms.Error] are not in the
    sources.  The first four are the ones set.go names; the others are the
    remaining kinds of the spec's error list. *)
Inductive ErrorCode : Type :=
| ErrorInvalidParameter
| ErrorInvalidResponse
| ErrorSetRejected
| ErrorSetPartial
| ErrorGetRejected
| ErrorActionRejected
| ErrorAssociationRejected
| ErrorCipherAuthFailure
| ErrorReplayDetected
| ErrorTransport
| ErrorNotConnected
| ErrorNotAssociated.

(** A Go [error]: one built by [errors.New] or [fmt.Errorf] (its message),
    a codec failure, or a [*dlms.Error] built by [dlms.NewError] (its code;
    the message text of a [dlms.Error] is not modelled). *)
Inductive error : Type :=
| errorString (msg : string)
| errorCodec (kind : CodecErrorKind)
| dlmsError (code : ErrorCode).

(** The value of a panic: [panic(v)] with [v] a string or an error.
    [PanicDataType value tag] is [panic(errDataType)], the error
    [fmt.Errorf("Cannot encode value %v with tag %T", d.Value, d.Tag)] of
    [DlmsData.Encode], kept as its two arguments. *)
Inductive PanicValue (V : Type) : Type :=
| PanicString (msg : string)
| PanicError (e : error)
| PanicDataType (value : V) (tag : Z).
Arguments PanicString {V} msg.
Arguments PanicError {V} e.
Arguments PanicDataType {V} value tag.

(** ** Package axdr: the A-XDR value tree and its encoder (axdr.go) *)

Module Axdr.

Definition TagNull : Z := 0.
Definition TagArray : Z := 1.
Definition TagStructure : Z := 2.
Definition TagBoolean : Z := 3.
Definition TagBitString : Z := 4.
Definition TagDoubleLong : Z := 5.
Definition TagDoubleLongUnsigned : Z := 6.
Definition TagFloatingPoint : Z := 7.
Definition TagOctetString : Z := 9.
Definition TagVisibleString : Z := 10.
Definition TagUTF8String : Z := 12.
Definition TagBCD : Z := 13.
Definition TagInteger : Z := 15.
Definition TagLong : Z := 16.
Definition TagUnsigned : Z := 17.
Definition TagLongUnsigned : Z := 18.
Definition TagCompactArray : Z := 19.
Definition TagLong64 : Z := 20.
Definition TagLong64Unsigned : Z := 21.
Definition TagEnum : Z := 22.
Definition TagFloat32 : Z := 23.
Definition TagFloat64 : Z := 24.
Definition TagDateTime : Z := 25.
Definition TagDate : Z := 26.
Definition TagTime : Z := 27.
Definition TagDontCare : Z := 255.

(** A [time.Time]: the civil date and clock reading in its own location,
    and the offset of that location, in seconds east of UTC. *)
Record GoTime : Type := mkGoTime {
  tYear : Z; tMonth : Z; tDay : Z;
  tHour : Z; tMinute : Z; tSecond : Z; tNanosecond : Z;
  tOffset : Z
}.

(** The dynamic value of the [interface{}] field [Value].  [VNil] is the
    nil interface; [VSlice] is a [[]*DlmsData] (of non-nil pointers);
    [VFloat32] and [VFloat64] hold the IEEE-754 bit pattern; [VOther] is a
    value of any Go type the encoder has no case for. *)
Inductive GoValue (D : Type) : Type :=
| VNil
| VSlice (data : list D)
| VBool (b : bool)
| VString (s : string)
| VInt (n : Z)
| VInt8 (n : Z)
| VInt16 (n : Z)
| VInt64 (n : Z)
| VUint8 (n : Z)
| VUint16 (n : Z)
| VUint32 (n : Z)
| VUint64 (n : Z)
| VFloat32 (bits : Z)
| VFloat64 (bits : Z)
| VTime (t : GoTime)
| VOther (typeName : string).
Arguments VNil {D}.
Arguments VSlice {D} data.
Arguments VBool {D} b.
Arguments VString {D} s.
Arguments VInt {D} n.
Arguments VInt8 {D} n.
Arguments VInt16 {D} n.
Arguments VInt64 {D} n.
Arguments VUint8 {D} n.
Arguments VUint16 {D} n.
Arguments VUint32 {D} n.
Arguments VUint64 {D} n.
Arguments VFloat32 {D} bits.
Arguments VFloat64 {D} bits.
Arguments VTime {D} t.
Arguments VOther {D} typeName.

(** [type DlmsData struct].  [raw] is the content of the [bytes.Buffer]. *)
#[warnings="-register-all"]
Inductive DlmsData : Type := mkDlmsData {
  Tag : Z;
  Value : GoValue DlmsData;
  rawValue : list Z;
  raw : list Z
}.

(** A call either returns or panics; a panic unwinds through every caller
    of this package (none recovers). *)
Inductive Outcome (A : Type) : Type :=
| Returns (a : A)
| Panics (p : PanicValue (GoValue DlmsData)).
Arguments Returns {A} a.
Arguments Panics {A} p.

Definition bind {A B} (m : Outcome A) (k : A -> Outcome B) : Outcome B :=
  match m with
  | Returns a => k a
  | Panics p => Panics p
  end.

Notation "x <- m ;; k" := (bind m (fun x => k))
  (at level 100, m at next level, right associativity).

(** The value encoders of encoding.go and [time.Parse] are not in the
    sources: [DlmsData.Encode] takes them as a parameter.  Each returns the
    Go pair [(out, err)]. *)
Record Encoders : Type := mkEncoders {
  EncodeLength : Z -> list Z * option error;
  EncodeBoolean : bool -> list Z * option error;
  EncodeBitString : string -> list Z * option error;
  EncodeDoubleLong : Z -> list Z * option error;
  EncodeDoubleLongUnsigned : Z -> list Z * option error;
  EncodeFloat32 : Z -> list Z * option error;
  EncodeOctetString : string -> list Z * option error;
  EncodeBCD : Z -> list Z * option error;
  EncodeInteger : Z -> list Z * option error;
  EncodeLong : Z -> list Z * option error;
  EncodeUnsigned : Z -> list Z * option error;
  EncodeLongUnsigned : Z -> list Z * option error;
  EncodeLong64 : Z -> list Z * option error;
  EncodeLong64Unsigned : Z -> list Z * option error;
  EncodeEnum : Z -> list Z * option error;
  EncodeFloat64 : Z -> list Z * option error;
  EncodeDateTime : GoTime -> list Z * option error;
  EncodeDate : GoTime -> list Z * option error;
  EncodeTime : GoTime -> list Z * option error;
  timeParse : string -> string -> GoTime * option error
}.

Section Encode.

Variable enc : Encoders.

Section EncodeArray.

Variable Encode : DlmsData -> Outcome (list Z * DlmsData).

(** Modelled from the spec: [EncodeArray] is not in the sources.  The spec
    has ARRAY and STRUCTURE carry a length-prefixed sequence of DlmsData;
    the elements are encoded in order by [Encode], which leaves its result
    in each of them, and the encodings are concatenated.  The error result
    is always nil. *)
Fixpoint EncodeArray (data : list DlmsData)
  : Outcome ((list Z * option error) * list DlmsData) :=
  match data with
  | [] => Returns (([], None), [])
  | d :: rest =>
      r <- Encode d ;;
      rs <- EncodeArray rest ;;
      Returns ((fst r ++ fst (fst rs), None), snd r :: snd rs)
  end.

End EncodeArray.

(** [if rv, err := f(data); err != nil { panic(err) } else { ... rv ... }]. *)
Definition orPanic {A} (r : list Z * option error) (k : list Z -> Outcome A)
  : Outcome A :=
  match r with
  | (_, Some err) => Panics (PanicError err)
  | (rv, None) => k rv
  end.

(** The statements after the [switch]: the tag byte, the length when there
    is one, the raw value. *)
Definition writeRaw (tag : Z) (value : GoValue DlmsData)
    (dataLength rawValue : list Z) : Outcome (list Z * DlmsData) :=
  let raw := [byte tag] in
  let raw := if len dataLength >? 0 then raw ++ dataLength else raw in
  let raw := raw ++ rawValue in
  Returns (raw, mkDlmsData tag value rawValue raw).

(** [func (d *DlmsData) Encode() []byte]: the bytes returned and the
    [DlmsData] the receiver points to after the call.  A value assigned to
    [d.rawValue] before a panic is not kept.  The chain of tests is the
    [switch] on [d.Tag], in the order of its cases.  Cases with the same
    body in the source share it here: [sequence] is the body of TagArray
    and TagStructure, [octets] that of TagOctetString, TagVisibleString and
    TagUTF8String, [moment] that of TagDateTime, TagDate and TagTime (up to
    the layout and the encoder), and [scalar] is
    [rawValue, _ := f(data); d.rawValue = rawValue]. *)
Fixpoint Encode (d : DlmsData) : Outcome (list Z * DlmsData) :=
  match Value d with
  | VNil => Panics (PanicString "Value to encode cannot be nil")
  | _ =>
    let errDataType := PanicDataType (Value d) (Tag d) in
    let scalar (r : list Z * option error) :=
      writeRaw (Tag d) (Value d) [] (fst r) in
    let sequence :=
      match Value d with
      | VSlice data =>
          r <- EncodeArray Encode data ;;
          let rawValue := fst (fst r) in
          orPanic (EncodeLength enc (len data)) (fun dl =>
          writeRaw (Tag d) (VSlice (snd r)) dl rawValue)
      | _ => Panics errDataType
      end in
    let octets :=
      match Value d with
      | VString data =>
          orPanic (EncodeOctetString enc data) (fun rv =>
          orPanic (EncodeLength enc (len rv)) (fun dl =>
          writeRaw (Tag d) (Value d) dl rv))
      | _ => Panics errDataType
      end in
    let moment (layout : string) (f : GoTime -> list Z * option error) :=
      match Value d with
      | VTime data =>
          orPanic (f data) (fun rv => writeRaw (Tag d) (Value d) [] rv)
      | VString v =>
          let data := fst (timeParse enc layout v) in
          orPanic (f data) (fun rv => writeRaw (Tag d) (Value d) [] rv)
      | _ => Panics errDataType
      end in
    if Tag d =? TagNull then
      writeRaw (Tag d) (Value d) [] [0]
    else if Tag d =? TagArray then sequence
    else if Tag d =? TagStructure then sequence
    else if Tag d =? TagBoolean then
      match Value d with
      | VBool data => scalar (EncodeBoolean enc data)
      | _ => Panics errDataType
      end
    else if Tag d =? TagBitString then
      match Value d with
      | VString data =>
          orPanic (EncodeBitString enc data) (fun rv =>
          orPanic (EncodeLength enc (Z.of_nat (String.length data))) (fun dl =>
          writeRaw (Tag d) (Value d) dl rv))
      | _ => Panics errDataType
      end
    else if Tag d =? TagDoubleLong then
      match Value d with
      | VInt data => scalar (EncodeDoubleLong enc data)
      | _ => Panics errDataType
      end
    else if Tag d =? TagDoubleLongUnsigned then
      match Value d with
      | VUint32 data => scalar (EncodeDoubleLongUnsigned enc data)
      | _ => Panics errDataType
      end
    else if Tag d =? TagFloatingPoint then
      match Value d with
      | VFloat32 data => scalar (EncodeFloat32 enc data)
      | _ => Panics errDataType
      end
    else if Tag d =? TagOctetString then octets
    else if Tag d =? TagVisibleString then octets
    else if Tag d =? TagUTF8String then octets
    else if Tag d =? TagBCD then
      match Value d with
      | VInt8 data => scalar (EncodeBCD enc data)
      | _ => Panics errDataType
      end
    else if Tag d =? TagInteger then
      match Value d with
      | VInt8 data => scalar (EncodeInteger enc data)
      | _ => Panics errDataType
      end
    else if Tag d =? TagLong then
      match Value d with
      | VInt16 data => scalar (EncodeLong enc data)
      | _ => Panics errDataType
      end
    else if Tag d =? TagUnsigned then
      match Value d with
      | VUint8 data => scalar (EncodeUnsigned enc data)
      | _ => Panics errDataType
      end
    else if Tag d =? TagLongUnsigned then
      match Value d with
      | VUint16 data => scalar (EncodeLongUnsigned enc data)
      | _ => Panics errDataType
      end
    else if Tag d =? TagCompactArray then
      Panics (PanicString "Not yet implemented")
    else if Tag d =? TagLong64 then
      match Value d with
      | VInt64 data => scalar (EncodeLong64 enc data)
      | _ => Panics errDataType
      end
    else if Tag d =? TagLong64Unsigned then
      match Value d with
      | VUint64 data => scalar (EncodeLong64Unsigned enc data)
      | _ => Panics errDataType
      end
    else if Tag d =? TagEnum then
      match Value d with
      | VUint8 data => scalar (EncodeEnum enc data)
      | _ => Panics errDataType
      end
    else if Tag d =? TagFloat32 then
      match Value d with
      | VFloat32 data => scalar (EncodeFloat32 enc data)
      | _ => Panics errDataType
      end
    else if Tag d =? TagFloat64 then
      match Value d with
      | VFloat64 data => scalar (EncodeFloat64 enc data)
      | _ => Panics errDataType
      end
    else if Tag d =? TagDateTime then
      moment "2006-01-02 15:04:05"%string (EncodeDateTime enc)
    else if Tag d =? TagDate then
      moment "2006-01-02"%string (EncodeDate enc)
    else if Tag d =? TagTime then
      moment "15:04:05"%string (EncodeTime enc)
    else if Tag d =? TagDontCare then
      writeRaw (Tag d) (Value d) [] [0]
    else
      (* no case of the switch: d.rawValue is what it was *)
      writeRaw (Tag d) (Value d) [] (rawValue d)
  end.

(** [Raw] and [RawValue]. *)
Definition Raw (d : DlmsData) : list Z := raw d.
Definition RawValue (d : DlmsData) : list Z := rawValue d.

End Encode.

(** The tags whose case in [Encode] asserts the Go type of [Value]. *)
Definition typedTags : list Z :=
  [TagArray; TagStructure; TagBoolean; TagBitString; TagDoubleLong;
   TagDoubleLongUnsigned; TagFloatingPoint; TagOctetString; TagVisibleString;
   TagUTF8String; TagBCD; TagInteger; TagLong; TagUnsigned; TagLongUnsigned;
   TagLong64; TagLong64Unsigned; TagEnum; TagFloat32; TagFloat64;
   TagDateTime; TagDate; TagTime].

Definition isTypedTag (tag : Z) : bool := existsb (Z.eqb tag) typedTags.

(** The tags the switch of [Encode] has a case for. *)
Definition declaredTags : list Z :=
  TagNull :: TagCompactArray :: TagDontCare :: typedTags.

Definition isDeclaredTag (tag : Z) : bool := existsb (Z.eqb tag) declaredTags.

(** Whether the Go type of a value is one that the payload of the tag may
    have: the types of the spec's table of tags, a string being accepted
    for a date or time.  NULL and DONT_CARE have no payload, and no value
    matches a tag that is not in the table. *)
Definition payloadMatches (tag : Z) (v : GoValue DlmsData) : bool :=
  match v with
  | VNil => false
  | VSlice _ => (tag =? TagArray) || (tag =? TagStructure)
  | VBool _ => tag =? TagBoolean
  | VString _ =>
      (tag =? TagBitString) || (tag =? TagOctetString)
      || (tag =? TagVisibleString) || (tag =? TagUTF8String)
      || (tag =? TagDateTime) || (tag =? TagDate) || (tag =? TagTime)
  | VInt _ => tag =? TagDoubleLong
  | VInt8 _ => (tag =? TagBCD) || (tag =? TagInteger)
  | VInt16 _ => tag =? TagLong
  | VInt64 _ => tag =? TagLong64
  | VUint8 _ => (tag =? TagUnsigned) || (tag =? TagEnum)
  | VUint16 _ => tag =? TagLongUnsigned
  | VUint32 _ => tag =? TagDoubleLongUnsigned
  | VUint64 _ => tag =? TagLong64Unsigned
  | VFloat32 _ => (tag =? TagFloatingPoint) || (tag =? TagFloat32)
  | VFloat64 _ => tag =? TagFloat64
  | VTime _ => (tag =? TagDateTime) || (tag =? TagDate) || (tag =? TagTime)
  | VOther _ => false
  end.

(** [var dataTagMapString = map[string]dataTag{...}]. *)
Definition dataTagMapString : gmap string Z :=
  list_to_map [
    ("NULL_DATA"%string, TagNull);
    ("ARRAY"%string, TagArray);
    ("STRUCTURE"%string, TagStructure);
    ("BOOLEAN"%string, TagBoolean);
    ("BIT_STRING"%string, TagBitString);
    ("DOUBLE_LONG"%string, TagDoubleLong);
    ("DOUBLE_LONG_UNSIGNED"%string, TagDoubleLongUnsigned);
    ("FLOATING_POINT"%string, TagFloatingPoint);
    ("OCTET_STRING"%string, TagOctetString);
    ("VISIBLE_STRING"%string, TagVisibleString);
    ("UTF8_STRING"%string, TagUTF8String);
    ("BCD"%string, TagBCD);
    ("INTEGER"%string, TagInteger);
    ("LONG"%string, TagLong);
    ("UNSIGNED"%string, TagUnsigned);
    ("LONG_UNSIGNED"%string, TagLongUnsigned);
    ("COMPACT_ARRAY"%string, TagCompactArray);
    ("LONG64"%string, TagLong64);
    ("LONG64_UNSIGNED"%string, TagLong64Unsigned);
    ("ENUM"%string, TagEnum);
    ("FLOAT32"%string, TagFloat32);
    ("FLOAT64"%string, TagFloat64);
    ("DATE_TIME"%string, TagDateTime);
    ("DATE"%string, TagDate);
    ("TIME"%string, TagTime);
    ("DONT_CARE"%string, TagDontCare)].

(** [var dataTagMapInt = map[dataTag]string{...}]. *)
Definition dataTagMapInt : gmap Z string :=
  list_to_map [
    (TagNull, "NULL_DATA"%string);
    (TagArray, "ARRAY"%string);
    (TagStructure, "STRUCTURE"%string);
    (TagBoolean, "BOOLEAN"%string);
    (TagBitString, "BIT_STRING"%string);
    (TagDoubleLong, "DOUBLE_LONG"%string);
    (TagDoubleLongUnsigned, "DOUBLE_LONG_UNSIGNED"%string);
    (TagFloatingPoint, "FLOATING_POINT"%string);
    (TagOctetString, "OCTET_STRING"%string);
    (TagVisibleString, "VISIBLE_STRING"%string);
    (TagUTF8String, "UTF8_STRING"%string);
    (TagBCD, "BCD"%string);
    (TagInteger, "INTEGER"%string);
    (TagLong, "LONG"%string);
    (TagUnsigned, "UNSIGNED"%string);
    (TagLongUnsigned, "LONG_UNSIGNED"%string);
    (TagCompactArray, "COMPACT_ARRAY"%string);
    (TagLong64, "LONG64"%string);
    (TagLong64Unsigned, "LONG64_UNSIGNED"%string);
    (TagEnum, "ENUM"%string);
    (TagFloat32, "FLOAT32"%string);
    (TagFloat64, "FLOAT64"%string);
    (TagDateTime, "DATE_TIME"%string);
    (TagDate, "DATE"%string);
    (TagTime, "TIME"%string);
    (TagDontCare, "DONT_CARE"%string)].

(** The entries of [dataTagMapString], in the order of the source. *)
Definition dataTagEntries : list (string * Z) :=
  [("NULL_DATA"%string, TagNull); ("ARRAY"%string, TagArray);
   ("STRUCTURE"%string, TagStructure); ("BOOLEAN"%string, TagBoolean);
   ("BIT_STRING"%string, TagBitString); ("DOUBLE_LONG"%string, TagDoubleLong);
   ("DOUBLE_LONG_UNSIGNED"%string, TagDoubleLongUnsigned);
   ("FLOATING_POINT"%string, TagFloatingPoint);
   ("OCTET_STRING"%string, TagOctetString);
   ("VISIBLE_STRING"%string, TagVisibleString);
   ("UTF8_STRING"%string, TagUTF8String); ("BCD"%string, TagBCD);
   ("INTEGER"%string, TagInteger); ("LONG"%string, TagLong);
   ("UNSIGNED"%string, TagUnsigned); ("LONG_UNSIGNED"%string, TagLongUnsigned);
   ("COMPACT_ARRAY"%string, TagCompactArray); ("LONG64"%string, TagLong64);
   ("LONG64_UNSIGNED"%string, TagLong64Unsigned); ("ENUM"%string, TagEnum);
   ("FLOAT32"%string, TagFloat32); ("FLOAT64"%string, TagFloat64);
   ("DATE_TIME"%string, TagDateTime); ("DATE"%string, TagDate);
   ("TIME"%string, TagTime); ("DONT_CARE"%string, TagDontCare)].

(** The bytes a call of [Encode] returned, without the state it left. *)
Definition returned (o : Outcome (list Z * DlmsData)) : Outcome (list Z) :=
  bind o (fun r => Returns (fst r)).

(** The layout [Encode] hands to [time.Parse] under a tag. *)
Definition timeLayout (tag : Z) : option string :=
  if tag =? TagDateTime then Some "2006-01-02 15:04:05"%string
  else if tag =? TagDate then Some "2006-01-02"%string
  else if tag =? TagTime then Some "15:04:05"%string
  else None.

(** The call of a value encoder in the cases of [Encode] that read
    [rawValue, _ := f(data)], for a value of the type the case asserts. *)
Definition uncheckedCall (enc : Encoders) (tag : Z) (v : GoValue DlmsData)
  : option (list Z * option error) :=
  match v with
  | VBool data => if tag =? TagBoolean then Some (EncodeBoolean enc data) else None
  | VInt data => if tag =? TagDoubleLong then Some (EncodeDoubleLong enc data) else None
  | VUint32 data =>
      if tag =? TagDoubleLongUnsigned
      then Some (EncodeDoubleLongUnsigned enc data) else None
  | VFloat32 data =>
      if (tag =? TagFloatingPoint) || (tag =? TagFloat32)
      then Some (EncodeFloat32 enc data) else None
  | VInt8 data =>
      if tag =? TagBCD then Some (EncodeBCD enc data)
      else if tag =? TagInteger then Some (EncodeInteger enc data) else None
  | VInt16 data => if tag =? TagLong then Some (EncodeLong enc data) else None
  | VUint8 data =>
      if tag =? TagUnsigned then Some (EncodeUnsigned enc data)
      else if tag =? TagEnum then Some (EncodeEnum enc data) else None
  | VUint16 data =>
      if tag =? TagLongUnsigned then Some (EncodeLongUnsigned enc data) else None
  | VInt64 data => if tag =? TagLong64 then Some (EncodeLong64 enc data) else None
  | VUint64 data =>
      if tag =? TagLong64Unsigned then Some (EncodeLong64Unsigned enc data) else None
  | VFloat64 data => if tag =? TagFloat64 then Some (EncodeFloat64 enc data) else None
  | _ => None
  end.

(** The call of a value encoder in the cases of [Encode] that read
    [if rv, errEncoding := f(data); errEncoding != nil { panic(errEncoding) }],
    for a value of a type the case accepts. *)
Definition checkedCall (enc : Encoders) (tag : Z) (v : GoValue DlmsData)
  : option (list Z * option error) :=
  match v with
  | VString data =>
      if tag =? TagBitString then Some (EncodeBitString enc data)
      else if (tag =? TagOctetString) || (tag =? TagVisibleString)
              || (tag =? TagUTF8String)
      then Some (EncodeOctetString enc data)
      else if tag =? TagDateTime
      then Some (EncodeDateTime enc
                   (fst (timeParse enc "2006-01-02 15:04:05" data)))
      else if tag =? TagDate
      then Some (EncodeDate enc (fst (timeParse enc "2006-01-02" data)))
      else if tag =? TagTime
      then Some (EncodeTime enc (fst (timeParse enc "15:04:05" data)))
      else None
  | VTime data =>
      if tag =? TagDateTime then Some (EncodeDateTime enc data)
      else if tag =? TagDate then Some (EncodeDate enc data)
      else if tag =? TagTime then Some (EncodeTime enc data)
      else None
  | _ => None
  end.

(** [dataLength], the length field [Encode] writes between the tag and
    the raw value: what [EncodeLength] returns for the number of elements
    of an array or structure, for the length of the string of a bit
    string, and for the length of the raw value of an octet, visible or
    UTF8 string; no other case of the switch sets it. *)
Definition lengthField (enc : Encoders) (tag : Z) (v : GoValue DlmsData)
    (rawValue : list Z) : list Z :=
  match v with
  | VSlice data =>
      if (tag =? TagArray) || (tag =? TagStructure)
      then fst (EncodeLength enc (len data)) else []
  | VString data =>
      if tag =? TagBitString
      then fst (EncodeLength enc (Z.of_nat (String.length data)))
      else if (tag =? TagOctetString) || (tag =? TagVisibleString)
              || (tag =? TagUTF8String)
      then fst (EncodeLength enc (len rawValue))
      else []
  | _ => []
  end.

(** *** The value encoders, from the spec's data model *)

(** [n] bytes, most significant first, of [v] modulo [256^n]. *)
Fixpoint bigEndian (n : nat) (v : Z) : list Z :=
  match n with
  | O => []
  | S k => bigEndian k (v / 256) ++ [v mod 256]
  end.

(** Modelled from the spec: [EncodeLength] is not in the sources.  A length
    below [0x80] is one byte; otherwise a byte [0x80 | n] and [n] bytes,
    most significant first, with the least [n] of 1 to 4. *)
Definition specEncodeLength (L : Z) : list Z * option error :=
  if L <? 0 then ([], Some (errorCodec LengthOverflow))
  else if L <? 0x80 then ([L], None)
  else if L <? 0x100 then (Z.lor 0x80 1 :: bigEndian 1 L, None)
  else if L <? 0x10000 then (Z.lor 0x80 2 :: bigEndian 2 L, None)
  else if L <? 0x1000000 then (Z.lor 0x80 3 :: bigEndian 3 L, None)
  else if L <? 0x100000000 then (Z.lor 0x80 4 :: bigEndian 4 L, None)
  else ([], Some (errorCodec LengthOverflow)).

(** Eight bits at a time, the first bit the most significant; [acc] holds
    the [n] bits of the byte being filled, and the last byte is padded with
    zero bits. *)
Fixpoint packBits (bits : list bool) (acc : Z) (n : nat) : list Z :=
  match bits with
  | [] => match n with O => [] | _ => [acc * 2 ^ (8 - Z.of_nat n)] end
  | b :: rest =>
      let acc := 2 * acc + (if b then 1 else 0) in
      match n with
      | 7%nat => acc :: packBits rest 0 0
      | _ => packBits rest acc (S n)
      end
  end.

Fixpoint bitsOfString (s : string) : option (list bool) :=
  match s with
  | EmptyString => Some []
  | String c rest =>
      match bitsOfString rest with
      | None => None
      | Some bits =>
          if Ascii.eqb c "0" then Some (false :: bits)
          else if Ascii.eqb c "1" then Some (true :: bits)
          else None
      end
  end.

(** Modelled from the spec: [EncodeBitString] is not in the sources.  The
    string holds one character, 0 or 1, per bit; the payload is the packed
    bits, the first bit the most significant of its byte, padded with
    zeros. *)
Definition specEncodeBitString (data : string) : list Z * option error :=
  match bitsOfString data with
  | Some bits => (packBits bits 0 0, None)
  | None => ([], Some (errorString "data is not a bit string"))
  end.

(** Days from 1970-01-01 to the civil date [y]-[m]-[d]. *)
Definition daysFromCivil (y m d : Z) : Z :=
  let y := if m <=? 2 then y - 1 else y in
  let era := y / 400 in
  let yoe := y - era * 400 in
  let doy := (153 * (if m >? 2 then m - 3 else m + 9) + 2) / 5 + d - 1 in
  let doe := yoe * 365 + yoe / 4 - yoe / 100 + doy in
  era * 146097 + doe - 719468.

(** The day of the week of a DLMS date: 1 is Monday, 7 is Sunday. *)
Definition dayOfWeek (t : GoTime) : Z :=
  let wd := (daysFromCivil (tYear t) (tMonth t) (tDay t) + 4) mod 7 in
  if wd =? 0 then 7 else wd.

(** Modelled from the spec: [EncodeDate] is not in the sources.  Five
    bytes: the year, most significant byte first, the month, the day of the
    month, the day of the week. *)
Definition specEncodeDate (t : GoTime) : list Z * option error :=
  (bigEndian 2 (tYear t) ++ [byte (tMonth t); byte (tDay t); dayOfWeek t], None).

(** Modelled from the spec: [EncodeTime] is not in the sources.  Four
    bytes: hour, minute, second, hundredths of a second. *)
Definition specEncodeTime (t : GoTime) : list Z * option error :=
  ([byte (tHour t); byte (tMinute t); byte (tSecond t);
    byte (tNanosecond t / 10000000)], None).

(** Modelled from the spec: [EncodeDateTime] is not in the sources.  Twelve
    bytes: the date, the time, the deviation (the offset from UTC in
    minutes, signed, most significant byte first) and the status. *)
Definition specEncodeDateTime (t : GoTime) : list Z * option error :=
  (fst (specEncodeDate t) ++ fst (specEncodeTime t)
     ++ bigEndian 2 (tOffset t / 60) ++ [0x00], None).

(** Modelled from the spec: the encoders of encoding.go, with the payload
    the spec's table of tags gives each tag; [time.Parse], of Go's library,
    stays a parameter. *)
Definition specEncoders (parse : string -> string -> GoTime * option error)
  : Encoders := {|
  EncodeLength := specEncodeLength;
  EncodeBoolean := fun b => ([if b then 0xFF else 0x00], None);
  EncodeBitString := specEncodeBitString;
  EncodeDoubleLong := fun v => (bigEndian 4 v, None);
  EncodeDoubleLongUnsigned := fun v => (bigEndian 4 v, None);
  EncodeFloat32 := fun bits => (bigEndian 4 bits, None);
  EncodeOctetString := fun data => (bytesOfString data, None);
  EncodeBCD := fun v => (bigEndian 1 v, None);
  EncodeInteger := fun v => (bigEndian 1 v, None);
  EncodeLong := fun v => (bigEndian 2 v, None);
  EncodeUnsigned := fun v => (bigEndian 1 v, None);
  EncodeLongUnsigned := fun v => (bigEndian 2 v, None);
  EncodeLong64 := fun v => (bigEndian 8 v, None);
  EncodeLong64Unsigned := fun v => (bigEndian 8 v, None);
  EncodeEnum := fun v => (bigEndian 1 v, None);
  EncodeFloat64 := fun bits => (bigEndian 8 bits, None);
  EncodeDateTime := specEncodeDateTime;
  EncodeDate := specEncodeDate;
  EncodeTime := specEncodeTime;
  timeParse := parse
|}.

(** Constructors of values, as the callers of this package build them. *)
Definition newDlmsData (tag : Z) (value : GoValue DlmsData) : DlmsData :=
  mkDlmsData tag value [] [].

(** A stand-in for [time.Parse]: the zero time and no error. *)
Definition parseNothing (layout value : string) : GoTime * option error :=
  (mkGoTime 1 1 1 0 0 0 0 0, None).

(** Encoders that report an error: with a byte for a boolean, with
    nothing for a bit string. *)
Definition failingBoolean : Encoders :=
  let enc := specEncoders parseNothing in
  mkEncoders (EncodeLength enc)
    (fun b => ([0x01], Some (errorString "bad boolean")))
    (fun s => ([], Some (errorString "bad bit string")))
    (EncodeDoubleLong enc) (EncodeDoubleLongUnsigned enc)
    (EncodeFloat32 enc) (EncodeOctetString enc) (EncodeBCD enc)
    (EncodeInteger enc) (EncodeLong enc) (EncodeUnsigned enc)
    (EncodeLongUnsigned enc) (EncodeLong64 enc)
    (EncodeLong64Unsigned enc) (EncodeEnum enc)
    (EncodeFloat64 enc) (EncodeDateTime enc) (EncodeDate enc)
    (EncodeTime enc) (timeParse enc).

(** *** The decoder, from the spec *)

(** The value of bytes read most significant first. *)
Definition fromBigEndian (b : list Z) : Z :=
  fold_left (fun acc x => acc * 256 + x) b 0.

(** The signed reading of an unsigned value of [bits] bits. *)
Definition toSigned (bits : Z) (v : Z) : Z :=
  if v <? 2 ^ (bits - 1) then v else v - 2 ^ bits.

(** The tags whose payload follows a length prefix. *)
Definition isSequence (tag : Z) : bool :=
  (tag =? TagArray) || (tag =? TagStructure).

Definition isString (tag : Z) : bool :=
  (tag =? TagOctetString) || (tag =? TagVisibleString) || (tag =? TagUTF8String).

Definition hasLength (tag : Z) : bool :=
  isSequence tag || isString tag || (tag =? TagBitString).

(** The bytes (for a sequence: the least number of bytes) that a payload
    of declared length [n] takes: the length of a bit string is in bits. *)
Definition payloadBytes (tag : Z) (n : Z) : Z :=
  if tag =? TagBitString then (n + 7) / 8 else n.

(** The width of the payload of every other tag of the spec's table. *)
Definition fixedWidth (tag : Z) : option nat :=
  if (tag =? TagNull) || (tag =? TagDontCare) then Some 0%nat
  else if (tag =? TagBoolean) || (tag =? TagBCD) || (tag =? TagInteger)
          || (tag =? TagUnsigned) || (tag =? TagEnum) then Some 1%nat
  else if (tag =? TagLong) || (tag =? TagLongUnsigned) then Some 2%nat
  else if (tag =? TagDoubleLong) || (tag =? TagDoubleLongUnsigned)
          || (tag =? TagFloat32) || (tag =? TagTime) then Some 4%nat
  else if tag =? TagDate then Some 5%nat
  else if (tag =? TagLong64) || (tag =? TagLong64Unsigned)
          || (tag =? TagFloat64) then Some 8%nat
  else if tag =? TagDateTime then Some 12%nat
  else None.

(** Modelled from the spec: [DecodeLength] is not in the sources.  A byte
    below [0x80] is the length; otherwise it is [0x80 | n], with [n] from 1
    to 4, and the length is the next [n] bytes, most significant first. *)
Definition DecodeLength (src : list Z) : CodecErrorKind + (Z * list Z) :=
  match src with
  | [] => inl Truncated
  | b :: rest =>
      if b <? 0x80 then inr (b, rest)
      else
        let n := b - 0x80 in
        if (n <? 1) || (n >? 4) then inl LengthOverflow
        else if len rest <? n then inl Truncated
        else inr (fromBigEndian (take (Z.to_nat n) rest), drop (Z.to_nat n) rest)
  end.

(** [n] bits of packed bytes as a string of 0 and 1. *)
Fixpoint unpackBits (n : nat) (bytes : list Z) (i : nat) : string :=
  match n with
  | O => EmptyString
  | S k =>
      match bytes with
      | [] => EmptyString
      | b :: rest =>
          let c := if Z.testbit b (7 - Z.of_nat i) then "1"%char else "0"%char in
          match i with
          | 7%nat => String c (unpackBits k rest 0)
          | _ => String c (unpackBits k bytes (S i))
          end
      end
  end.

Section Decode.

(** The spec rejects with [InvalidDateTime] the sub-fields of a date or
    time that are outside the permitted ranges, and does not list the
    ranges: the check of the payload of tags 25, 26 and 27 is a parameter. *)
Variable inRange : Z -> list Z -> bool.

(** The time of a date-time, date or time payload, its fields as read. *)
Definition timeOfPayload (tag : Z) (b : list Z) : GoTime :=
  let date := if tag =? TagTime then [0; 0; 0; 0; 0] else take 5 b in
  let clock :=
    if tag =? TagTime then b
    else if tag =? TagDate then [0; 0; 0; 0]
    else take 4 (drop 5 b) in
  let deviation := if tag =? TagDateTime then take 2 (drop 9 b) else [0; 0] in
  mkGoTime (fromBigEndian (take 2 date))
    (nth 2 date 0) (nth 3 date 0)
    (nth 0 clock 0) (nth 1 clock 0) (nth 2 clock 0)
    (nth 3 clock 0 * 10000000)
    (toSigned 16 (fromBigEndian deviation) * 60).

(** The value of a payload of fixed width. *)
Definition decodeFixed (tag : Z) (b : list Z) : CodecErrorKind + GoValue DlmsData :=
  let v := fromBigEndian b in
  if (tag =? TagNull) || (tag =? TagDontCare) then inr VNil
  else if tag =? TagBoolean then
    if v =? 0x00 then inr (VBool false)
    else if v =? 0xFF then inr (VBool true)
    else inl InvalidBoolean
  else if tag =? TagDoubleLong then inr (VInt (toSigned 32 v))
  else if tag =? TagDoubleLongUnsigned then inr (VUint32 v)
  else if (tag =? TagBCD) || (tag =? TagInteger) then inr (VInt8 (toSigned 8 v))
  else if tag =? TagLong then inr (VInt16 (toSigned 16 v))
  else if (tag =? TagUnsigned) || (tag =? TagEnum) then inr (VUint8 v)
  else if tag =? TagLongUnsigned then inr (VUint16 v)
  else if tag =? TagLong64 then inr (VInt64 (toSigned 64 v))
  else if tag =? TagLong64Unsigned then inr (VUint64 v)
  else if tag =? TagFloat32 then inr (VFloat32 v)
  else if tag =? TagFloat64 then inr (VFloat64 v)
  else if inRange tag b then inr (VTime (timeOfPayload tag b))
  else inl InvalidDateTime.

(** The value of a tag that is not ARRAY or STRUCTURE, and the bytes that
    follow it. *)
Definition decodeScalar (tag : Z) (src : list Z)
  : CodecErrorKind + (DlmsData * list Z) :=
  if isString tag || (tag =? TagBitString) then
    match DecodeLength src with
    | inl e => inl e
    | inr (n, src) =>
        let width := payloadBytes tag n in
        if width >? len src then inl LengthOverflow
        else
          let payload := take (Z.to_nat width) src in
          let value :=
            if tag =? TagBitString then VString (unpackBits (Z.to_nat n) payload 0)
            else VString (stringOfBytes payload) in
          inr (newDlmsData tag value, drop (Z.to_nat width) src)
    end
  else
    match fixedWidth tag with
    | None => inl UnknownTag
    | Some width =>
        if len src <? Z.of_nat width then inl Truncated
        else
          match decodeFixed tag (take width src) with
          | inl e => inl e
          | inr value => inr (newDlmsData tag value, drop width src)
          end
    end.

Section Elements.

Variable decode : list Z -> CodecErrorKind + (DlmsData * list Z).

(** [n] values, one after the other. *)
Fixpoint decodeElements (n : nat) (src : list Z)
  : CodecErrorKind + (list DlmsData * list Z) :=
  match n with
  | O => inr ([], src)
  | S k =>
      match decode src with
      | inl e => inl e
      | inr (d, src) =>
          match decodeElements k src with
          | inl e => inl e
          | inr (ds, src) => inr (d :: ds, src)
          end
      end
  end.

End Elements.

(** Modelled from the spec: the decoder (decoding.go) is not in the
    sources.  It reads one tagged value from the front of [src] and returns
    it with the bytes that follow; it fails with [Truncated] when bytes are
    missing, with [UnknownTag] on a tag that is not in the spec's table,
    with [LengthOverflow] when a length prefix claims more than the bytes
    that remain, and when ARRAYs and STRUCTUREs are nested deeper than
    [depth] (16 at the top). *)
Fixpoint Decode (depth : nat) (src : list Z)
  : CodecErrorKind + (DlmsData * list Z) :=
  match src with
  | [] => inl Truncated
  | tag :: src =>
      if isSequence tag then
        match depth with
        | O => inl NestingTooDeep
        | S depth =>
            match DecodeLength src with
            | inl e => inl e
            | inr (n, src) =>
                if payloadBytes tag n >? len src then inl LengthOverflow
                else
                  match decodeElements (Decode depth) (Z.to_nat n) src with
                  | inl e => inl e
                  | inr (ds, src) => inr (newDlmsData tag (VSlice ds), src)
                  end
            end
        end
      else decodeScalar tag src
  end.

Definition maxDepth : nat := 16.

(** A buffer in which a length prefix claims more than the bytes that
    follow it: the prefix of the value at the front ([PoisonedHere]), or a
    prefix further in, after [k] elements of an ARRAY or STRUCTURE that
    decode ([PoisonedInside]). *)
Inductive Poisoned : nat -> list Z -> Prop :=
| PoisonedHere (depth : nat) (tag : Z) (src : list Z) (n : Z) (rest : list Z) :
    hasLength tag = true ->
    DecodeLength src = inr (n, rest) ->
    payloadBytes tag n > len rest ->
    Poisoned depth (tag :: src)
| PoisonedInside (depth : nat) (tag : Z) (src : list Z) (n : Z) (rest : list Z)
    (k : nat) (before : list DlmsData) (inner : list Z) :
    isSequence tag = true ->
    DecodeLength src = inr (n, rest) ->
    (k < Z.to_nat n)%nat ->
    decodeElements (Decode depth) k rest = inr (before, inner) ->
    Poisoned depth inner ->
    Poisoned (S depth) (tag :: src).

End Decode.

(** Modelled from the spec: [DecodeLongUnsigned] is not in the sources.  It
    reads a [uint16], most significant byte first, from the front of the
    slice [src] points to and advances the slice; on a slice of fewer than
    two bytes it fails and leaves the slice as it is.  The result is the Go
    triple [(outByte, outVal, err)] and the slice after the call. *)
Definition DecodeLongUnsigned (src : list Z)
  : (list Z * Z * option error) * list Z :=
  if len src <? 2 then (([], 0, Some (errorCodec Truncated)), src)
  else ((take 2 src, fromBigEndian (take 2 src), None), drop 2 src).


(** Any payload of a date or time is taken as in range. *)
Definition anyDate (tag : Z) (payload : list Z) : bool := true.

End Axdr.

(** ** Package dlms: AARQ encoding (aarq.go) *)

Module Dlms.

(** APDU types. *)
Definition PduTypeProtocolVersion : Z := 0.
Definition PduTypeApplicationContextName : Z := 1.
Definition PduTypeCalledAPTitle : Z := 2.
Definition PduTypeCalledAEQualifier : Z := 3.
Definition PduTypeCalledAPInvocationID : Z := 4.
Definition PduTypeCalledAEInvocationID : Z := 5.
Definition PduTypeCallingAPTitle : Z := 6.
Definition PduTypeCallingAEQualifier : Z := 7.
Definition PduTypeCallingAPInvocationID : Z := 8.
Definition PduTypeCallingAEInvocationID : Z := 9.
Definition PduTypeSenderAcseRequirements : Z := 10.
Definition PduTypeMechanismName : Z := 11.
Definition PduTypeCallingAuthenticationValue : Z := 12.
Definition PduTypeImplementationInformation : Z := 29.
Definition PduTypeUserInformation : Z := 30.

(** BER encoding enumeration values. *)
Definition BERTypeContext : Z := 0x80.
Definition BERTypeApplication : Z := 0x40.
Definition BERTypeConstructed : Z := 0x20.

(** Application context definitions. *)
Definition ApplicationContextLNNoCiphering : Z := 1.
Definition ApplicationContextSNNoCiphering : Z := 2.
Definition ApplicationContextLNCiphering : Z := 3.
Definition ApplicationContextSNCiphering : Z := 4.

(** Modelled from the spec: the declarations of [Authentication],
    [Security], [Ciphering], [Settings], [Cipher] and of the two initiate
    request tags are not in the sources (settings.go, cipher.go, tags).
    The spec gives the authentication modes [{None, Low, High}], carried in
    the last octet of the mechanism-name OID [2.16.756.5.8.2.{0,1,2}], the
    security bit field (bit 4 = authentication, bit 5 = encryption), the
    initiate-request tag [0x01] and the GLO tag [0x21]; the field names are
    those the functions of aarq.go and its tests read and write. *)
Definition AuthenticationNone : Z := 0.
Definition AuthenticationLow : Z := 1.
Definition AuthenticationHigh : Z := 2.

Definition SecurityNone : Z := 0.
Definition SecurityAuthentication : Z := 0x10.
Definition SecurityEncryption : Z := 0x20.

Definition TagInitiateRequest : Z := 1.
Definition TagGloInitiateRequest : Z := 33.

Record Ciphering : Type := mkCiphering {
  Security : Z;
  SystemTitle : list Z;
  UnicastKey : list Z;
  AuthenticationKey : list Z;
  DedicatedKey : list Z;
  InvocationCounter : Z   (* uint32 *)
}.

Record Settings : Type := mkSettings {
  Authentication : Z;
  Password : list Z;
  Ciphering_ : Ciphering;
  MaxPduSize : Z
}.

Record Cipher : Type := mkCipher {
  Cipher_Tag : Z;
  Cipher_Security : Z;
  Cipher_SystemTitle : list Z;
  Cipher_Key : list Z;
  Cipher_AuthKey : list Z;
  Cipher_FrameCounter : Z
}.

(** [settings.Ciphering.InvocationCounter++] on the [uint32] field. *)
Definition incrInvocationCounter (s : Settings) : Settings :=
  let c := Ciphering_ s in
  mkSettings (Authentication s) (Password s)
    (mkCiphering (Security c) (SystemTitle c) (UnicastKey c)
       (AuthenticationKey c) (DedicatedKey c)
       (uint32 (InvocationCounter c + 1)))
    (MaxPduSize s).

Definition generateApplicationContextName (settings : Settings) : list Z :=
  let buf := [Z.lor (Z.lor BERTypeContext BERTypeConstructed) PduTypeApplicationContextName] in
  let buf := buf ++ [0x09; 0x06; 0x07; 0x60; 0x85; 0x74; 0x05; 0x08; 0x01] in
  let buf :=
    if (Security (Ciphering_ settings) =? SecurityNone)
       && (len (SystemTitle (Ciphering_ settings)) =? 0)
    then buf ++ [byte ApplicationContextLNNoCiphering]
    else buf ++ [byte ApplicationContextLNCiphering] in
  let buf :=
    if len (SystemTitle (Ciphering_ settings)) >? 0
    then buf ++ [Z.lor (Z.lor BERTypeContext BERTypeConstructed) PduTypeCallingAPTitle]
             ++ [0x0A; 0x04; 0x08]
             ++ SystemTitle (Ciphering_ settings)
    else buf in
  buf.

Definition errPasswordRequired : error :=
  errorString "password is required for authentication".

Definition generateAuthentication (settings : Settings) : list Z * option error :=
  if negb (Authentication settings =? AuthenticationNone) then
    let buf := [Z.lor BERTypeContext PduTypeSenderAcseRequirements] in
    let buf := buf ++ [0x02; 0x07; 0x80] in
    let buf := buf ++ [Z.lor BERTypeContext PduTypeMechanismName] in
    let buf := buf ++ [0x07; 0x60; 0x85; 0x74; 0x05; 0x08; 0x02] in
    let buf := buf ++ [byte (Authentication settings)] in
    let err :=
      if len (Password settings) =? 0 then Some errPasswordRequired else None in
    let buf := buf ++ [Z.lor (Z.lor BERTypeContext BERTypeConstructed)
                         PduTypeCallingAuthenticationValue] in
    let buf := buf ++ [byte (2 + len (Password settings))] in
    let buf := buf ++ [0x80] in
    let buf := buf ++ [byte (len (Password settings))] in
    let buf := buf ++ Password settings in
    (buf, err)
  else ([], None).

Definition getInitiateRequest (settings : Settings) : list Z :=
  let buf := [byte TagInitiateRequest] in
  let buf :=
    if (Security (Ciphering_ settings) =? SecurityNone)
       || (len (DedicatedKey (Ciphering_ settings)) =? 0)
    then buf ++ [0x00]
    else buf ++ [0x01]
             ++ [byte (len (DedicatedKey (Ciphering_ settings)))]
             ++ DedicatedKey (Ciphering_ settings) in
  let buf := buf ++ [0x00; 0x00; 0x06; 0x5F; 0x1F; 0x04; 0x00; 0x00; 0x18; 0x1F] in
  let maxPduSize := PutUint16 (uint16 (MaxPduSize settings)) in
  buf ++ maxPduSize.

Section WithCipher.

(** [CipherData] (cipher.go, AES-GCM) is not in the sources: it is a
    parameter of everything that calls it. *)
Variable CipherData : Cipher -> list Z -> list Z * option error.

(** The configuration [generateUserInformation] hands to [CipherData]. *)
Definition initiateRequestCipher (settings : Settings) : Cipher :=
  mkCipher TagGloInitiateRequest
    (Security (Ciphering_ settings))
    (SystemTitle (Ciphering_ settings))
    (UnicastKey (Ciphering_ settings))
    (AuthenticationKey (Ciphering_ settings))
    (InvocationCounter (Ciphering_ settings)).

(** Returns [(out, err)] and the settings after the call. *)
Definition generateUserInformation (settings : Settings)
  : (list Z * option error) * Settings :=
  let buf := [Z.lor (Z.lor BERTypeContext BERTypeConstructed) PduTypeUserInformation] in
  let initiateRequest := getInitiateRequest settings in
  let finish (initiateRequest : list Z) (settings : Settings) :=
    let buf := buf ++ [byte (2 + len initiateRequest)] in
    let buf := buf ++ [0x04] in
    let buf := buf ++ [byte (len initiateRequest)] in
    let buf := buf ++ initiateRequest in
    ((buf, None), settings) in
  if negb (Security (Ciphering_ settings) =? SecurityNone) then
    let cfg := initiateRequestCipher settings in
    let settings := incrInvocationCounter settings in
    match CipherData cfg initiateRequest with
    | (_, Some err) => (([], Some err), settings)
    | (initiateRequest, None) => finish initiateRequest settings
    end
  else finish initiateRequest settings.

(** Returns [(out, err)] and the settings after the call. *)
Definition EncodeAARQ (settings : Settings) : (list Z * option error) * Settings :=
  let buf := [Z.lor BERTypeApplication BERTypeConstructed] in
  let buf := buf ++ [0x00] in
  let buf := buf ++ generateApplicationContextName settings in
  match generateAuthentication settings with
  | (_, Some err) => (([], Some err), settings)
  | (auth, None) =>
      let buf := buf ++ auth in
      match generateUserInformation settings with
      | ((_, Some err), settings) => (([], Some err), settings)
      | ((userInfo, None), settings) =>
          let buf := buf ++ userInfo in
          let out := <[1%nat := byte (len buf - 2)]> buf in
          ((out, None), settings)
      end
  end.

End WithCipher.

(** The bytes of the AARQ before the length byte is filled in, for a
    user-information field that carries [initiateRequest]. *)
Definition aarqBody (settings : Settings) (initiateRequest : list Z) : list Z :=
  [0x60; 0x00] ++ generateApplicationContextName settings
    ++ fst (generateAuthentication settings)
    ++ [0xBE; byte (2 + len initiateRequest); 0x04; byte (len initiateRequest)]
    ++ initiateRequest.

(** The AARQ with its length byte. *)
Definition aarqBytes (settings : Settings) (initiateRequest : list Z) : list Z :=
  let buf := aarqBody settings initiateRequest in
  <[1%nat := byte (len buf - 2)]> buf.

(** Settings with no authentication, no ciphering and no system title. *)
Definition settingsWithoutAuthentication (maxPduSize : Z) : Settings :=
  mkSettings AuthenticationNone []
    (mkCiphering SecurityNone [] [] [] [] 0) maxPduSize.

(** Modelled from the spec: [NewSettingsWithoutAuthentication] is not in
    the sources (its callers in the tests are).  The spec's scenario 1:
    authentication = None, no system title, max PDU = 1024. *)
Definition NewSettingsWithoutAuthentication : Settings :=
  settingsWithoutAuthentication 1024.

(** The settings the test [TestEncodeAARQWithLowAuthenticationAndCipher]
    builds (the spec's scenario 4): Low authentication with the password
    "JuS66BCZ", authenticated encryption, invocation counter [0x00000107],
    max PDU 512. *)
Definition scenario4Settings : Settings :=
  mkSettings AuthenticationLow
    [0x4A; 0x75; 0x53; 0x36; 0x36; 0x42; 0x43; 0x5A]
    (mkCiphering (Z.lor SecurityEncryption SecurityAuthentication)
       [0x43; 0x49; 0x52; 0x00; 0x00; 0x00; 0x00; 0x01]
       [0x00; 0x11; 0x22; 0x33; 0x44; 0x55; 0x66; 0x77;
        0x88; 0x99; 0xAA; 0xBB; 0xCC; 0xDD; 0xEE; 0xFF]
       [0x00; 0x11; 0x22; 0x33; 0x44; 0x55; 0x66; 0x77;
        0x88; 0x99; 0xAA; 0xBB; 0xCC; 0xDD; 0xEE; 0xFF]
       [0xE8; 0x03; 0x73; 0x9D; 0xBE; 0x33; 0x8C; 0x3A;
        0x79; 0x0D; 0x8D; 0x1B; 0x12; 0xC6; 0x3F; 0xE2]
       0x00000107)
    512.

(** The settings of [TestEncodeAARQWithLowAuthentication], whose expected
    bytes end in a max PDU size of 256: Low authentication with the
    password "12345678" and no ciphering. *)
Definition lowAuthenticationSettings : Settings :=
  mkSettings AuthenticationLow
    [0x31; 0x32; 0x33; 0x34; 0x35; 0x36; 0x37; 0x38]
    (mkCiphering SecurityNone [] [] [] [] 0) 256.

(** The ciphered initiate request of scenario 4: the 50 bytes that end the
    expected AARQ of [TestEncodeAARQWithLowAuthenticationAndCipher]. *)
Definition scenario4Ciphered : list Z :=
  [0x21; 0x30; 0x30; 0x00; 0x00; 0x01; 0x07; 0x8E; 0x63; 0x41; 0x44; 0x22;
   0x75; 0x40; 0x4C; 0x81; 0x6C; 0x6B; 0xED; 0x3E; 0x33; 0xAE; 0x80; 0x9E;
   0xC5; 0x1E; 0x1D; 0x0E; 0x42; 0x8B; 0xE8; 0xF5; 0xF6; 0x43; 0xE2; 0x6C;
   0x3D; 0xD8; 0x9F; 0xD2; 0xE3; 0xF2; 0x22; 0x00; 0x97; 0x12; 0x4F; 0x58;
   0xE0; 0xF4].

(** A stand-in for [CipherData], to run the functions above on concrete
    settings: it fails without a key, and otherwise frames the data as the
    spec describes a ciphered APDU (tag, length, security byte, frame
    counter, data), leaving the data as it is. *)
Definition frameOnly (cfg : Cipher) (data : list Z) : list Z * option error :=
  if len (Cipher_Key cfg) =? 0 then ([], Some (errorString "no key"))
  else ([byte (Cipher_Tag cfg); byte (5 + len data); byte (Cipher_Security cfg)]
          ++ PutUint32 (Cipher_FrameCounter cfg) ++ data, None).

(** Scenario 4 without its password, as the test of Low authentication
    leaves its settings ([settings.Password = nil]). *)
Definition scenario4NoPassword : Settings :=
  mkSettings (Authentication scenario4Settings) []
    (Ciphering_ scenario4Settings) (MaxPduSize scenario4Settings).

(** No ciphering, with the system title of scenario 4 configured. *)
Definition systemTitleOnly : Settings :=
  mkSettings AuthenticationNone []
    (mkCiphering SecurityNone (SystemTitle (Ciphering_ scenario4Settings))
       [] [] [] 0)
    256.

(** Low authentication with a password of 300 bytes. *)
Definition longPassword : Settings :=
  mkSettings AuthenticationLow (repeat 0x41 300)
    (mkCiphering SecurityNone [] [] [] [] 0) 256.

(** The settings with other keys and another invocation counter. *)
Definition withKeys (s : Settings)
    (unicastKey authenticationKey dedicatedKey : list Z) (invocationCounter : Z)
  : Settings :=
  mkSettings (Authentication s) (Password s)
    (mkCiphering (Security (Ciphering_ s)) (SystemTitle (Ciphering_ s))
       unicastKey authenticationKey dedicatedKey invocationCounter)
    (MaxPduSize s).

(** A sequence of BER fields whose tag and length take one byte each. *)
Definition berEncode (fields : list (Z * list Z)) : list Z :=
  concat (map (fun f => fst f :: len (snd f) :: snd f) fields).

(** A reader of such a sequence: a tag byte, a length byte below [0x80]
    that does not claim more than the bytes that follow, the value, and
    so on to the end of the buffer; [fuel] bounds the number of fields. *)
Fixpoint berFields (fuel : nat) (b : list Z) : option (list (Z * list Z)) :=
  match b with
  | [] => Some []
  | [_] => None
  | tag :: n :: rest =>
      match fuel with
      | O => None
      | S fuel =>
          if (0 <=? n) && (n <? 0x80) && (n <=? len rest) then
            option_map (cons (tag, take (Z.to_nat n) rest))
              (berFields fuel (drop (Z.to_nat n) rest))
          else None
      end
  end.

(** The fields of the AARQ of [settings] whose user information carries
    [initiateRequest], as a reader of the AARQ is to find them. *)
Definition aarqFields (settings : Settings) (initiateRequest : list Z)
  : list (Z * list Z) :=
  [(0xA1, [0x06; 0x07; 0x60; 0x85; 0x74; 0x05; 0x08; 0x01;
           if (Security (Ciphering_ settings) =? SecurityNone)
              && (len (SystemTitle (Ciphering_ settings)) =? 0)
           then 1 else 3])]
  ++ (if len (SystemTitle (Ciphering_ settings)) >? 0
      then [(0xA6, [0x04; 0x08] ++ SystemTitle (Ciphering_ settings))]
      else [])
  ++ (if negb (Authentication settings =? AuthenticationNone)
      then [(0x8A, [0x07; 0x80]);
            (0x8B, [0x60; 0x85; 0x74; 0x05; 0x08; 0x02;
                    byte (Authentication settings)]);
            (0xAC, [0x80; len (Password settings)] ++ Password settings)]
      else [])
  ++ [(0xBE, [0x04; len initiateRequest] ++ initiateRequest)].

(** The initiate request as [generateUserInformation] puts it in the user
    information: plain, or what [CipherData] returned. *)
Definition sentInitiateRequest
    (CipherData : Cipher -> list Z -> list Z * option error)
    (settings : Settings) : list Z :=
  if Security (Ciphering_ settings) =? SecurityNone
  then getInitiateRequest settings
  else fst (CipherData (initiateRequestCipher settings)
              (getInitiateRequest settings)).

(** *** attributeDescriptor.go *)

(** Modelled from the spec: the type [Obis] and [DecodeObis] (obis.go) are
    not in the sources.  An OBIS code is a six-byte identifier A.B.C.D.E.F
    and its binary form is exactly these six bytes. *)
Record Obis : Type := mkObis {
  obisA : Z; obisB : Z; obisC : Z; obisD : Z; obisE : Z; obisF : Z
}.

Definition Obis_Bytes (ob : Obis) : list Z :=
  [byte (obisA ob); byte (obisB ob); byte (obisC ob);
   byte (obisD ob); byte (obisE ob); byte (obisF ob)].

(** Returns the Go pair [(out, err)] and the slice [src] points to after
    the call: advanced by six bytes, or as it was on failure. *)
Definition DecodeObis (src : list Z) : (Obis * option error) * list Z :=
  match src with
  | a :: b :: c :: d :: e :: f :: rest => ((mkObis a b c d e f, None), rest)
  | _ => ((mkObis 0 0 0 0 0 0, Some (errorCodec Truncated)), src)
  end.

Record AttributeDescriptor : Type := mkAttributeDescriptor {
  ClassID : Z;        (* uint16 *)
  InstanceID : Obis;
  AttributeID : Z     (* int8 *)
}.

(** [func (ad AttributeDescriptor) Encode() (out []byte, err error)]. *)
Definition AttributeDescriptor_Encode (ad : AttributeDescriptor)
  : list Z * option error :=
  let output := [] in
  let c := PutUint16 (ClassID ad) in
  let output := output ++ c in
  let output := output ++ Obis_Bytes (InstanceID ad) in
  let output := output ++ [byte (AttributeID ad)] in
  (output, None).

(** [func DecodeAttributeDescriptor(ori *[]byte)]: the Go pair [(out, err)]
    and the slice [ori] points to after the call.  Indexing an empty slice
    panics. *)
Definition DecodeAttributeDescriptor (ori : list Z)
  : Axdr.Outcome ((AttributeDescriptor * option error) * list Z) :=
  let src := ori in
  let out := mkAttributeDescriptor 0 (mkObis 0 0 0 0 0 0) 0 in
  if len src <? 9 then
    Axdr.Returns
      ((out, Some (errorString "byte slice length must be at least 9 bytes")), ori)
  else
    let '((_, classID, err), src) := Axdr.DecodeLongUnsigned src in
    let out := mkAttributeDescriptor classID (InstanceID out) (AttributeID out) in
    match err with
    | Some err => Axdr.Returns ((out, Some err), ori)
    | None =>
        let '((instanceID, err), src) := DecodeObis src in
        let out := mkAttributeDescriptor (ClassID out) instanceID (AttributeID out) in
        match err with
        | Some err => Axdr.Returns ((out, Some err), ori)
        | None =>
            match src with
            | [] => Axdr.Panics (PanicString "index out of range")
            | b :: rest =>
                let out :=
                  mkAttributeDescriptor (ClassID out) (InstanceID out)
                    (Axdr.toSigned 8 (byte b)) in
                let src := rest in
                Axdr.Returns
                  ((out, None), drop (length ori - length src)%nat ori)
            end
        end
    end.

(** *** selectiveAccessDescriptor.go *)

Definition AccessSelectorRange : Z := 1.
Definition AccessSelectorEntry : Z := 2.

Record SelectiveAccessDescriptor : Type := mkSelectiveAccessDescriptor {
  AccessSelector : Z;
  AccessParameter : Axdr.DlmsData
}.

(** The parameter of an entry descriptor: the spec's
    [Entry { from_entry: u32, to_entry: u32, from_selected: u16,
    to_selected: u16 }] as a STRUCTURE of the four values. *)
Definition entryParameter (fromEntry toEntry fromSelected toSelected : Z)
  : Axdr.DlmsData :=
  Axdr.newDlmsData Axdr.TagStructure (Axdr.VSlice [
    Axdr.newDlmsData Axdr.TagDoubleLongUnsigned (Axdr.VUint32 fromEntry);
    Axdr.newDlmsData Axdr.TagDoubleLongUnsigned (Axdr.VUint32 toEntry);
    Axdr.newDlmsData Axdr.TagLongUnsigned (Axdr.VUint16 fromSelected);
    Axdr.newDlmsData Axdr.TagLongUnsigned (Axdr.VUint16 toSelected)]).

(** The tags of the elements of a STRUCTURE. *)
Definition elementTags (d : Axdr.DlmsData) : option (list Z) :=
  if Axdr.Tag d =? Axdr.TagStructure then
    match Axdr.Value d with
    | Axdr.VSlice ds => Some (map Axdr.Tag ds)
    | _ => None
    end
  else None.

(** Whether a decoded parameter has the shape of its selector. *)
Definition parameterShape (selector : Z) (d : Axdr.DlmsData) : bool :=
  if selector =? AccessSelectorEntry then
    match elementTags d with
    | Some [t1; t2; t3; t4] =>
        (t1 =? Axdr.TagDoubleLongUnsigned) && (t2 =? Axdr.TagDoubleLongUnsigned)
        && (t3 =? Axdr.TagLongUnsigned) && (t4 =? Axdr.TagLongUnsigned)
    | _ => false
    end
  else if selector =? AccessSelectorRange then
    match Axdr.Value d with
    | Axdr.VSlice [restricting; fromValue; toValue; selected] =>
        (Axdr.Tag d =? Axdr.TagStructure)
        && match elementTags restricting with
           | Some [t1; t2; t3; t4] =>
               (t1 =? Axdr.TagLongUnsigned) && (t2 =? Axdr.TagOctetString)
               && (t3 =? Axdr.TagInteger) && (t4 =? Axdr.TagLongUnsigned)
           | _ => false
           end
        && (Axdr.Tag fromValue =? Axdr.TagOctetString)
        && (Axdr.Tag toValue =? Axdr.TagOctetString)
        && (Axdr.Tag selected =? Axdr.TagArray)
    | _ => false
    end
  else false.

(** Modelled from the spec: [DecodeSelectiveAccessDescriptor] is not in the
    sources (its test is).  It works on a copy of the caller's slice, as
    [DecodeAttributeDescriptor] does: it reads the selector id, decodes one
    A-XDR value and checks it against the variant of the selector; only
    when all of this succeeded is the caller's slice advanced past the
    bytes read.  The result is the Go pair [(out, err)] and the slice
    [ori] points to after the call. *)
Definition DecodeSelectiveAccessDescriptor (inRange : Z -> list Z -> bool)
    (ori : list Z) : (SelectiveAccessDescriptor * option error) * list Z :=
  let src := ori in
  let out := mkSelectiveAccessDescriptor 0 (Axdr.newDlmsData 0 Axdr.VNil) in
  match src with
  | [] => ((out, Some (errorCodec Truncated)), ori)
  | selector :: src =>
      match Axdr.Decode inRange Axdr.maxDepth src with
      | inl e => ((out, Some (errorCodec e)), ori)
      | inr (parameter, src) =>
          if parameterShape selector parameter then
            ((mkSelectiveAccessDescriptor selector parameter, None),
             drop (length ori - length src)%nat ori)
          else ((out, Some (errorCodec TagMismatch)), ori)
      end
  end.

(** The entry descriptor of scenario 5, its third element replaced by an
    OCTET STRING that claims 127 bytes where 4 follow. *)
Definition poisonedEntry : list Z :=
  [0x02; 0x02; 0x04; 0x06; 0x00; 0x00; 0x00; 0x00; 0x06; 0x00; 0x00; 0x00;
   0x05; 0x09; 0x7F; 0x00; 0x12; 0x00; 0x00].

End Dlms.

(** ** Package dlmsclient: bulk Set (set.go) *)

Module DlmsClient.

(** [dlms.TagAccSuccess], the data-access-result of a successful access. *)
Definition TagAccSuccess : Z := 0.

(** What [c.encodeSendReceiveAndDecode] decodes from the reply. *)
Inductive Pdu : Type :=
| SetResponseNormal (Result : Z)
| OtherPdu (typeName : string).

(** One field of the struct handed to [SetRequestWithStructOfElements],
    with what the parts of the client that are not in the sources answer
    for it: [c.getAttributeDescriptor] on its type, [axdr.MarshalData] on
    its value when that is not already a [*axdr.DlmsData], and
    [c.encodeSendReceiveAndDecode] on its Set request (the meter's reply,
    or the error of the transport or of the codec).  [fieldIsPointer] is
    [v.Field(i).Kind() == reflect.Pointer].  [fieldIsNil] says that the
    pointer is nil: [v.Field(i).IsNil()] for a field of kind Pointer, and
    [dt == nil] for a value that is a [*axdr.DlmsData], which a field of
    kind Interface can hold as well.  [axdr.MarshalData] is taken to
    return a pointer that is not nil when it returns no error. *)
Record Field : Type := mkField {
  fieldDescriptor : option Dlms.AttributeDescriptor * option error;
  fieldIsPointer : bool;
  fieldIsNil : bool;
  fieldIsDlmsData : bool;
  fieldMarshalError : option error;
  fieldReply : Pdu * option error
}.

(** The argument [data] after [eindirect(reflect.ValueOf(data))]. *)
Inductive DataValue : Type :=
| Struct (fields : list Field)
| NotStruct (kind : string).

(** [errors.As(err, &dlmsError) && dlmsError.Code() == code]. *)
Definition hasCode (err : error) (code : ErrorCode) : bool :=
  match err with
  | dlmsError c =>
      match c, code with
      | ErrorInvalidParameter, ErrorInvalidParameter
      | ErrorInvalidResponse, ErrorInvalidResponse
      | ErrorSetRejected, ErrorSetRejected
      | ErrorSetPartial, ErrorSetPartial
      | ErrorGetRejected, ErrorGetRejected
      | ErrorActionRejected, ErrorActionRejected
      | ErrorAssociationRejected, ErrorAssociationRejected
      | ErrorCipherAuthFailure, ErrorCipherAuthFailure
      | ErrorReplayDetected, ErrorReplayDetected
      | ErrorTransport, ErrorTransport
      | ErrorNotConnected, ErrorNotConnected
      | ErrorNotAssociated, ErrorNotAssociated => true
      | _, _ => false
      end
  | _ => false
  end.

(** The run-time panic of [*dt] when [dt] is a nil pointer. *)
Definition nilDereference : PanicValue (Axdr.GoValue Axdr.DlmsData) :=
  PanicError
    (errorString "runtime error: invalid memory address or nil pointer dereference").

(** [func (c *client) setRequest(att, data) (err error)] for the field
    whose value is [data].  A nil [*axdr.DlmsData] passes the type
    assertion, and [*dt], in the arguments of
    [dlms.CreateSetRequestNormal], panics. *)
Definition setRequest (att : option Dlms.AttributeDescriptor) (f : Field)
  : Axdr.Outcome (option error) :=
  match att with
  | None => Axdr.Returns (Some (dlmsError ErrorInvalidParameter))
  | Some _ =>
      let marshalled :=
        if fieldIsDlmsData f then None else fieldMarshalError f in
      match marshalled with
      | Some _ => Axdr.Returns (Some (dlmsError ErrorInvalidParameter))
      | None =>
          if fieldIsDlmsData f && fieldIsNil f
          then Axdr.Panics nilDereference
          else
            match fieldReply f with
            | (_, Some err) => Axdr.Returns (Some err)
            | (SetResponseNormal Result, None) =>
                if negb (Result =? TagAccSuccess)
                then Axdr.Returns (Some (dlmsError ErrorSetRejected))
                else Axdr.Returns None
            | (OtherPdu _, None) =>
                Axdr.Returns (Some (dlmsError ErrorInvalidResponse))
            end
      end
  end.

Section Loop.

Variable continueOnSetRejected : bool.

(** The [for] loop over the fields and the statements after it, from the
    values of [errSet], [isSomethingDone] and [isSomethingFailed].  A panic
    of [setRequest] ends the call. *)
Fixpoint setFields (fields : list Field) (errSet : option error)
    (isSomethingDone isSomethingFailed : bool) : Axdr.Outcome (option error) :=
  match fields with
  | [] =>
      if isSomethingFailed && isSomethingDone
      then Axdr.Returns (Some (dlmsError ErrorSetPartial))
      else Axdr.Returns errSet
  | f :: rest =>
      match fieldDescriptor f with
      | (_, Some err) => Axdr.Returns (Some err)
      | (None, None) => setFields rest errSet isSomethingDone isSomethingFailed
      | (Some ad, None) =>
          if fieldIsPointer f && fieldIsNil f
          then setFields rest errSet isSomethingDone isSomethingFailed
          else
            match setRequest (Some ad) f with
            | Axdr.Panics p => Axdr.Panics p
            | Axdr.Returns (Some err) =>
                if hasCode err ErrorSetRejected && continueOnSetRejected
                then setFields rest (Some err) isSomethingDone true
                else if isSomethingDone
                     then Axdr.Returns (Some (dlmsError ErrorSetPartial))
                     else Axdr.Returns (Some err)
            | Axdr.Returns None => setFields rest errSet true isSomethingFailed
            end
      end
  end.

(** [func (c *client) SetRequestWithStructOfElements(data interface{},
    continueOnSetRejected bool) error].  The mutex held for the call is
    not modelled. *)
Definition SetRequestWithStructOfElements (data : DataValue)
  : Axdr.Outcome (option error) :=
  match data with
  | NotStruct _ => Axdr.Returns (Some (dlmsError ErrorInvalidParameter))
  | Struct fields => setFields fields None false false
  end.

End Loop.

(** What the loop meets at one field. *)
Inductive FieldOutcome : Type :=
| Skipped                        (* no descriptor, or a nil pointer *)
| DescriptorFailed (err : error) (* getAttributeDescriptor failed *)
| SetDone                        (* setRequest returned nil *)
| SetFailed (err : error)        (* setRequest returned err *)
| SetPanicked (p : PanicValue (Axdr.GoValue Axdr.DlmsData)).
                                 (* setRequest panicked *)

Definition fieldOutcome (f : Field) : FieldOutcome :=
  match fieldDescriptor f with
  | (_, Some err) => DescriptorFailed err
  | (None, None) => Skipped
  | (Some ad, None) =>
      if fieldIsPointer f && fieldIsNil f then Skipped
      else match setRequest (Some ad) f with
           | Axdr.Panics p => SetPanicked p
           | Axdr.Returns (Some err) => SetFailed err
           | Axdr.Returns None => SetDone
           end
  end.

Definition isDone (f : Field) : bool :=
  match fieldOutcome f with SetDone => true | _ => false end.

(** Skipped or set: the loop goes on to the next field. *)
Definition isQuiet (f : Field) : bool :=
  match fieldOutcome f with Skipped | SetDone => true | _ => false end.

(** The meter rejected the Set of this field. *)
Definition isRejected (f : Field) : bool :=
  match fieldOutcome f with
  | SetFailed err => hasCode err ErrorSetRejected
  | _ => false
  end.

(** Sample fields: a descriptor for the clock's time, and the meter's
    reply to the Set. *)
Definition clockTime : Dlms.AttributeDescriptor :=
  Dlms.mkAttributeDescriptor 8 (Dlms.mkObis 0 0 1 0 0 255) 2.

Definition fieldWithReply (Result : Z) : Field :=
  mkField (Some clockTime, None) false false true None
    (SetResponseNormal Result, None).

(** No descriptor, or a nil pointer: the loop passes the field over. *)
Definition isSkipped (f : Field) : bool :=
  match fieldOutcome f with Skipped => true | _ => false end.

(** [func (c *client) SetRequest(att, data) (err error)] of the unnamed
    set.go: [setRequest] under the mutex, which is not modelled. *)
Definition SetRequest (att : option Dlms.AttributeDescriptor) (f : Field)
  : Axdr.Outcome (option error) :=
  setRequest att f.

(** [func (c *client) SetRequest(att, data) (err error)] of
    pkg/dlmsclient/set.go, which does the exchange itself. *)
Definition SetRequest_dlmsclient (att : option Dlms.AttributeDescriptor) (f : Field)
  : Axdr.Outcome (option error) :=
  match att with
  | None => Axdr.Returns (Some (dlmsError ErrorInvalidParameter))
  | Some _ =>
      let err := if fieldIsDlmsData f then None else fieldMarshalError f in
      match err with
      | Some _ => Axdr.Returns (Some (dlmsError ErrorInvalidParameter))
      | None =>
          if fieldIsDlmsData f && fieldIsNil f
          then Axdr.Panics nilDereference
          else
            match fieldReply f with
            | (_, Some err) => Axdr.Returns (Some err)
            | (pdu, None) =>
                match pdu with
                | SetResponseNormal Result =>
                    if negb (Result =? TagAccSuccess)
                    then Axdr.Returns (Some (dlmsError ErrorSetRejected))
                    else Axdr.Returns None
                | OtherPdu _ => Axdr.Returns (Some (dlmsError ErrorInvalidResponse))
                end
            end
      end
  end.

(** Whether [setRequest], with a descriptor that is not nil, gets as far
    as [c.encodeSendReceiveAndDecode]: the value marshals, and [*dt] does
    not panic. *)
Definition reachesExchange (f : Field) : bool :=
  if fieldIsDlmsData f then negb (fieldIsNil f)
  else match fieldMarshalError f with None => true | Some _ => false end.

(** Whether the Set request of a field goes to the meter: the loop calls
    [setRequest] for it, and that reaches [c.encodeSendReceiveAndDecode]. *)
Definition requestSent (f : Field) : bool :=
  match fieldDescriptor f with
  | (Some _, None) =>
      negb (fieldIsPointer f && fieldIsNil f) && reachesExchange f
  | _ => false
  end.

(** The loop of [SetRequestWithStructOfElements] once more, for the fields
    whose Set request went to the meter, in order.  Nothing is sent after
    a panic. *)
Fixpoint sentFields (continueOnSetRejected : bool) (fields : list Field)
  : list Field :=
  match fields with
  | [] => []
  | f :: rest =>
      match fieldDescriptor f with
      | (_, Some err) => []
      | (None, None) => sentFields continueOnSetRejected rest
      | (Some ad, None) =>
          if fieldIsPointer f && fieldIsNil f
          then sentFields continueOnSetRejected rest
          else
            let sent := if reachesExchange f then [f] else [] in
            match setRequest (Some ad) f with
            | Axdr.Panics _ => sent
            | Axdr.Returns (Some err) =>
                if hasCode err ErrorSetRejected && continueOnSetRejected
                then sent ++ sentFields continueOnSetRejected rest
                else sent
            | Axdr.Returns None => sent ++ sentFields continueOnSetRejected rest
            end
      end
  end.

(** A [reflect.Value]: a pointer or an interface with what its [Elem()]
    returns (the zero Value when it is nil), a struct with its fields, the
    zero Value, or a value of another kind.  A chain of pointers that comes
    back to itself is no value of this type. *)
Inductive ReflectValue : Type :=
| RPtr (elem : ReflectValue)
| RInterface (elem : ReflectValue)
| RStruct (fields : list Field)
| RInvalid
| ROther (kind : string).

(** [func eindirect(v reflect.Value) reflect.Value]. *)
Fixpoint eindirect (v : ReflectValue) : ReflectValue :=
  match v with
  | RPtr elem | RInterface elem => eindirect elem
  | _ => v
  end.

(** [v.Kind() != reflect.Struct], and the fields when it is a struct. *)
Definition asDataValue (v : ReflectValue) : DataValue :=
  match v with
  | RStruct fields => Struct fields
  | RPtr _ => NotStruct "ptr"
  | RInterface _ => NotStruct "interface"
  | RInvalid => NotStruct "invalid"
  | ROther kind => NotStruct kind
  end.

(** [SetRequestWithStructOfElements] from the [reflect.Value] of [data]. *)
Definition SetRequestWithStructOfElementsOf (data : ReflectValue)
    (continueOnSetRejected : bool) : Axdr.Outcome (option error) :=
  SetRequestWithStructOfElements continueOnSetRejected
    (asDataValue (eindirect data)).

(** [n] pointers, one to the next, the last one to [v]. *)
Fixpoint pointerTo (n : nat) (v : ReflectValue) : ReflectValue :=
  match n with
  | O => v
  | S k => RPtr (pointerTo k v)
  end.

(** A field whose exchange with the meter fails in the transport. *)
Definition fieldWithTransportError : Field :=
  mkField (Some clockTime, None) false false true None
    (OtherPdu "", Some (dlmsError ErrorTransport)).


End DlmsClient.

(** * Properties *)

(** ** AARQ encoding *)

Section AarqFacts.

Import Dlms.

Variable CipherData : Cipher -> list Z -> list Z * option error.

Lemma generateAuthentication_ok (s : Settings) :
  snd (generateAuthentication s) = None <->
  (Authentication s = AuthenticationNone \/ Password s <> []).
Proof.
  unfold generateAuthentication.
  destruct (Z.eqb_spec (Authentication s) AuthenticationNone) as [E | E]; simpl.
  - tauto.
  - destruct (Password s) as [| b l] eqn:P; simpl.
    + split; [discriminate | intros [H | H]; congruence].
    + unfold len. simpl length.
      destruct (Z.eqb_spec (Z.of_nat (S (length l))) 0) as [L | L]; [lia |].
      split; [intros _; right; discriminate | reflexivity].
Qed.

Lemma generateAuthentication_error (s : Settings) (e : error) :
  snd (generateAuthentication s) = Some e -> e = errPasswordRequired.
Proof.
  unfold generateAuthentication.
  destruct (negb _); simpl; [| discriminate].
  destruct (len (Password s) =? 0); congruence.
Qed.

(** Without ciphering the initiate request goes out in plain text and the
    settings are left as they are. *)
Lemma EncodeAARQ_plain (s : Settings) :
  Security (Ciphering_ s) = SecurityNone ->
  snd (generateAuthentication s) = None ->
  EncodeAARQ CipherData s = ((aarqBytes s (getInitiateRequest s), None), s).
Proof.
  intros HS HA. unfold EncodeAARQ, generateUserInformation.
  destruct (generateAuthentication s) as [auth err] eqn:GA. simpl in HA. subst err.
  rewrite HS. simpl negb. cbv iota.
  unfold aarqBytes, aarqBody. rewrite GA. simpl fst.
  repeat rewrite <- app_assoc. reflexivity.
Qed.

(** With ciphering, once the authentication fields are encoded, the counter
    is stepped whatever [CipherData] answers. *)
Lemma EncodeAARQ_ciphered (s : Settings) :
  Security (Ciphering_ s) <> SecurityNone ->
  snd (generateAuthentication s) = None ->
  EncodeAARQ CipherData s =
    match CipherData (initiateRequestCipher s) (getInitiateRequest s) with
    | (_, Some err) => (([], Some err), incrInvocationCounter s)
    | (c, None) => ((aarqBytes s c, None), incrInvocationCounter s)
    end.
Proof.
  intros HS HA. unfold EncodeAARQ, generateUserInformation.
  destruct (generateAuthentication s) as [auth err] eqn:GA. simpl in HA. subst err.
  destruct (Z.eqb_spec (Security (Ciphering_ s)) SecurityNone) as [E | E]; [tauto |].
  simpl negb. cbv iota.
  destruct (CipherData (initiateRequestCipher s) (getInitiateRequest s)) as [c [e |]].
  - reflexivity.
  - unfold aarqBytes, aarqBody. rewrite GA. simpl fst.
    repeat rewrite <- app_assoc. reflexivity.
Qed.

(** When a password is required and missing, nothing else is done. *)
Lemma EncodeAARQ_no_password (s : Settings) :
  snd (generateAuthentication s) <> None ->
  EncodeAARQ CipherData s = (([], Some errPasswordRequired), s).
Proof.
  intros HA. unfold EncodeAARQ.
  destruct (generateAuthentication s) as [auth [e |]] eqn:GA; simpl in HA; [| tauto].
  assert (e = errPasswordRequired) by
    (apply (generateAuthentication_error s); rewrite GA; reflexivity).
  subst e. reflexivity.
Qed.

(** The user-information field of a ciphered association carries what
    [CipherData] made of the initiate request. *)
Lemma generateUserInformation_ciphered (s : Settings) (c : list Z) :
  Security (Ciphering_ s) <> SecurityNone ->
  CipherData (initiateRequestCipher s) (getInitiateRequest s) = (c, None) ->
  generateUserInformation CipherData s =
    (([0xBE; byte (2 + len c); 0x04; byte (len c)] ++ c, None),
     incrInvocationCounter s).
Proof.
  intros HS HC. unfold generateUserInformation.
  destruct (Z.eqb_spec (Security (Ciphering_ s)) SecurityNone) as [E | E]; [tauto |].
  simpl negb. cbv iota. rewrite HC. reflexivity.
Qed.

(** C1, as amended.  For settings whose security is not [SecurityNone] and
    whose authentication fields encode (no authentication, or a password
    that is not empty), [EncodeAARQ] steps the invocation counter by exactly
    one, modulo 2^32, whether or not [CipherData] succeeds; when it
    succeeds, the user-information field holds the ciphered initiate
    request in place of the plain one, ciphered under the counter's value
    before the step.  Encoding the AARQ of scenario 4 leaves the counter at
    [0x00000108]. *)
Theorem EncodeAARQ_ciphered_steps_counter :
  (forall s : Settings,
     Security (Ciphering_ s) <> SecurityNone ->
     Authentication s = AuthenticationNone \/ Password s <> [] ->
     InvocationCounter (Ciphering_ (snd (EncodeAARQ CipherData s)))
       = uint32 (InvocationCounter (Ciphering_ s) + 1)
     /\ Cipher_FrameCounter (initiateRequestCipher s)
          = InvocationCounter (Ciphering_ s)
     /\ forall c : list Z,
          CipherData (initiateRequestCipher s) (getInitiateRequest s) = (c, None) ->
          fst (generateUserInformation CipherData s)
            = ([0xBE; byte (2 + len c); 0x04; byte (len c)] ++ c, None)
          /\ EncodeAARQ CipherData s
               = ((aarqBytes s c, None), incrInvocationCounter s))
  /\ InvocationCounter (Ciphering_ (snd (EncodeAARQ CipherData scenario4Settings)))
       = 0x00000108.
Proof.
  assert (step : forall s : Settings,
    Security (Ciphering_ s) <> SecurityNone ->
    Authentication s = AuthenticationNone \/ Password s <> [] ->
    snd (EncodeAARQ CipherData s) = incrInvocationCounter s).
  { intros s HS HA. apply generateAuthentication_ok in HA.
    rewrite (EncodeAARQ_ciphered s HS HA).
    destruct (CipherData _ _) as [c [e |]]; reflexivity. }
  split.
  - intros s HS HA. split; [| split].
    + rewrite (step s HS HA). reflexivity.
    + reflexivity.
    + intros c HC. split.
      * rewrite (generateUserInformation_ciphered s c HS HC). reflexivity.
      * apply generateAuthentication_ok in HA.
        rewrite (EncodeAARQ_ciphered s HS HA), HC. reflexivity.
  - rewrite step.
    + reflexivity.
    + discriminate.
    + right. discriminate.
Qed.

(** C2, as amended.  With no authentication, no ciphering and no system
    title, [EncodeAARQ] succeeds; it returns the bytes of the spec's
    scenario 1 (ending in [01 00]) when the max PDU size is 256, and the
    same bytes ending in [04 00] when the max PDU size is 1024. *)
Theorem EncodeAARQ_without_authentication :
  fst (EncodeAARQ CipherData (settingsWithoutAuthentication 256))
    = ([0x60; 0x1D; 0xA1; 0x09; 0x06; 0x07; 0x60; 0x85; 0x74; 0x05; 0x08;
        0x01; 0x01; 0xBE; 0x10; 0x04; 0x0E; 0x01; 0x00; 0x00; 0x00; 0x06;
        0x5F; 0x1F; 0x04; 0x00; 0x00; 0x18; 0x1F; 0x01; 0x00], None)
  /\ fst (EncodeAARQ CipherData NewSettingsWithoutAuthentication)
    = ([0x60; 0x1D; 0xA1; 0x09; 0x06; 0x07; 0x60; 0x85; 0x74; 0x05; 0x08;
        0x01; 0x01; 0xBE; 0x10; 0x04; 0x0E; 0x01; 0x00; 0x00; 0x00; 0x06;
        0x5F; 0x1F; 0x04; 0x00; 0x00; 0x18; 0x1F; 0x04; 0x00], None).
Proof.
  split; rewrite EncodeAARQ_plain by reflexivity; reflexivity.
Qed.

(** C4, as amended.  The last octet of the application-context-name OID,
    the byte at index 10 of the field and at index 12 of the AARQ, is 1
    exactly when the security is [SecurityNone] and no system title is
    configured, and 3 otherwise: a system title alone selects the
    ciphering context. *)
Theorem applicationContextName_last_octet (s : Settings) :
  (generateApplicationContextName s !! 10%nat = Some 1
   <-> (Security (Ciphering_ s) = SecurityNone /\ SystemTitle (Ciphering_ s) = []))
  /\ (generateApplicationContextName s !! 10%nat = Some 3
   <-> ~ (Security (Ciphering_ s) = SecurityNone /\ SystemTitle (Ciphering_ s) = []))
  /\ forall out s',
       EncodeAARQ CipherData s = ((out, None), s') ->
       out !! 12%nat = generateApplicationContextName s !! 10%nat.
Proof.
  assert (T : (len (SystemTitle (Ciphering_ s)) =? 0) = true
              <-> SystemTitle (Ciphering_ s) = []).
  { unfold len. destruct (SystemTitle (Ciphering_ s)); simpl; split;
      intros H; try reflexivity; try discriminate;
      try (apply Z.eqb_eq in H; lia). }
  assert (O : generateApplicationContextName s !! 10%nat
              = Some (if (Security (Ciphering_ s) =? SecurityNone)
                         && (len (SystemTitle (Ciphering_ s)) =? 0)
                      then 1 else 3)).
  { unfold generateApplicationContextName.
    destruct ((Security (Ciphering_ s) =? SecurityNone)
              && (len (SystemTitle (Ciphering_ s)) =? 0));
      destruct (len (SystemTitle (Ciphering_ s)) >? 0); reflexivity. }
  assert (S0 : (Security (Ciphering_ s) =? SecurityNone) = true
               <-> Security (Ciphering_ s) = SecurityNone) by apply Z.eqb_eq.
  split; [| split].
  - rewrite O.
    destruct (Security (Ciphering_ s) =? SecurityNone);
      destruct (len (SystemTitle (Ciphering_ s)) =? 0); simpl;
      intuition (try discriminate; try congruence).
  - rewrite O.
    destruct (Security (Ciphering_ s) =? SecurityNone);
      destruct (len (SystemTitle (Ciphering_ s)) =? 0); simpl;
      intuition (try discriminate; try congruence).
  - intros out s' H. unfold EncodeAARQ in H.
    destruct (generateAuthentication s) as [auth [e |]]; [discriminate |].
    destruct (generateUserInformation CipherData s) as [[ui [e |]] s2]; [discriminate |].
    injection H as H _. subst out.
    unfold generateApplicationContextName.
    destruct ((Security (Ciphering_ s) =? SecurityNone)
              && (len (SystemTitle (Ciphering_ s)) =? 0));
      destruct (len (SystemTitle (Ciphering_ s)) >? 0); reflexivity.
Qed.

(** The second byte of a successful AARQ is the length of what follows it,
    modulo 256. *)
Lemma lengthByte_modulo (s s' : Settings) (out : list Z) :
  EncodeAARQ CipherData s = ((out, None), s') ->
  out !! 1%nat = Some (byte (len out - 2))
  /\ (len out - 2 <= 255 -> out !! 1%nat = Some (len out - 2))
  /\ (len out - 2 > 255 -> out !! 1%nat <> Some (len out - 2)).
Proof.
  intros H. unfold EncodeAARQ in H.
  destruct (generateAuthentication s) as [auth [e |]]; [discriminate |].
  destruct (generateUserInformation CipherData s) as [[ui [e |]] s2]; [discriminate |].
  set (buf := ((([Z.lor BERTypeApplication BERTypeConstructed] ++ [0x00])
                  ++ generateApplicationContextName s) ++ auth) ++ ui) in *.
  assert (E : out = <[1%nat := byte (len buf - 2)]> buf) by congruence.
  clear H.
  assert (L : len out = len buf).
  { subst out. unfold len. rewrite length_insert. reflexivity. }
  assert (G : (2 <= length buf)%nat).
  { subst buf. simpl. lia. }
  assert (B : out !! 1%nat = Some (byte (len out - 2))).
  { rewrite L. subst out. apply list_lookup_insert_eq. lia. }
  assert (P : 0 <= len out - 2).
  { rewrite L. unfold len. lia. }
  split; [exact B | split].
  - intros Hle. rewrite B. unfold byte. rewrite Z.mod_small by lia. reflexivity.
  - intros Hgt. rewrite B. unfold byte. intros W. injection W as W.
    pose proof (Z.mod_pos_bound (len out - 2) 256). lia.
Qed.

(** C10.  Whenever [EncodeAARQ] succeeds, the second byte of the AARQ is
    the length of what follows it, modulo 256: it is that length when the
    length is at most 255, and differs from it when the length is larger.
    No length makes [EncodeAARQ] fail: without ciphering it succeeds as
    soon as the authentication fields encode, however long the password. *)
Theorem EncodeAARQ_length_byte (s : Settings) :
  (Security (Ciphering_ s) = SecurityNone ->
   Authentication s = AuthenticationNone \/ Password s <> [] ->
   exists out, EncodeAARQ CipherData s = ((out, None), s))
  /\ forall out s',
       EncodeAARQ CipherData s = ((out, None), s') ->
       out !! 1%nat = Some (byte (len out - 2))
       /\ (len out - 2 <= 255 -> out !! 1%nat = Some (len out - 2))
       /\ (len out - 2 > 255 -> out !! 1%nat <> Some (len out - 2)).
Proof.
  split.
  - intros HS HA. apply generateAuthentication_ok in HA.
    eexists. apply EncodeAARQ_plain; assumption.
  - intros out s' H. exact (lengthByte_modulo s s' out H).
Qed.

End AarqFacts.

(** The steps of C1 at scenario 4. *)
Lemma EncodeAARQ_ciphered_steps_counter_witness :
  Dlms.Security (Dlms.Ciphering_ Dlms.scenario4Settings) <> Dlms.SecurityNone
  /\ Dlms.InvocationCounter
       (Dlms.Ciphering_ (snd (Dlms.EncodeAARQ Dlms.frameOnly Dlms.scenario4Settings)))
     = uint32 (0x00000107 + 1).
Proof.
  assert (H1 : Dlms.Security (Dlms.Ciphering_ Dlms.scenario4Settings)
               <> Dlms.SecurityNone) by (vm_compute; lia).
  assert (H2 : Dlms.Authentication Dlms.scenario4Settings = Dlms.AuthenticationNone
               \/ Dlms.Password Dlms.scenario4Settings <> [])
    by (right; simpl; discriminate).
  split; [exact H1 |].
  exact (proj1 (proj1 (EncodeAARQ_ciphered_steps_counter Dlms.frameOnly)
                  Dlms.scenario4Settings H1 H2)).
Defined.

(** C1 as stated fails: with ciphering on, a required password missing,
    [EncodeAARQ] returns its error before the counter is touched. *)
Lemma EncodeAARQ_missing_password_keeps_counter :
  Dlms.Security (Dlms.Ciphering_ Dlms.scenario4NoPassword) <> Dlms.SecurityNone
  /\ Dlms.EncodeAARQ Dlms.frameOnly Dlms.scenario4NoPassword
     = (([], Some Dlms.errPasswordRequired), Dlms.scenario4NoPassword)
  /\ Dlms.InvocationCounter
       (Dlms.Ciphering_ (snd (Dlms.EncodeAARQ Dlms.frameOnly Dlms.scenario4NoPassword)))
     = 0x00000107
  /\ Dlms.InvocationCounter
       (Dlms.Ciphering_ (snd (Dlms.EncodeAARQ Dlms.frameOnly Dlms.scenario4NoPassword)))
     <> uint32 (Dlms.InvocationCounter (Dlms.Ciphering_ Dlms.scenario4NoPassword) + 1).
Proof.
  repeat split; try reflexivity; vm_compute; discriminate.
Qed.

(** C2 as stated fails: with the max PDU size of 1024 the AARQ ends in
    [04 00], not in the [01 00] of the expected bytes. *)
Lemma EncodeAARQ_max_pdu_1024 :
  fst (Dlms.EncodeAARQ Dlms.frameOnly Dlms.NewSettingsWithoutAuthentication)
    = ([0x60; 0x1D; 0xA1; 0x09; 0x06; 0x07; 0x60; 0x85; 0x74; 0x05; 0x08;
        0x01; 0x01; 0xBE; 0x10; 0x04; 0x0E; 0x01; 0x00; 0x00; 0x00; 0x06;
        0x5F; 0x1F; 0x04; 0x00; 0x00; 0x18; 0x1F; 0x04; 0x00], None)
  /\ fst (Dlms.EncodeAARQ Dlms.frameOnly Dlms.NewSettingsWithoutAuthentication)
    <> ([0x60; 0x1D; 0xA1; 0x09; 0x06; 0x07; 0x60; 0x85; 0x74; 0x05; 0x08;
        0x01; 0x01; 0xBE; 0x10; 0x04; 0x0E; 0x01; 0x00; 0x00; 0x00; 0x06;
        0x5F; 0x1F; 0x04; 0x00; 0x00; 0x18; 0x1F; 0x01; 0x00], None).
Proof.
  split; [reflexivity | vm_compute; discriminate].
Qed.

(** C4 as stated fails: with no ciphering and a system title configured
    the OID ends in 3. *)
Lemma applicationContextName_system_title_only :
  Dlms.Security (Dlms.Ciphering_ Dlms.systemTitleOnly) = Dlms.SecurityNone
  /\ Dlms.generateApplicationContextName Dlms.systemTitleOnly !! 10%nat = Some 3
  /\ fst (fst (Dlms.EncodeAARQ Dlms.frameOnly Dlms.systemTitleOnly)) !! 12%nat = Some 3.
Proof.
  repeat split.
Qed.

(** The octet of C4 in the AARQ of scenario 4. *)
Lemma applicationContextName_last_octet_witness :
  fst (fst (Dlms.EncodeAARQ Dlms.frameOnly Dlms.scenario4Settings)) !! 12%nat
  = Dlms.generateApplicationContextName Dlms.scenario4Settings !! 10%nat.
Proof.
  exact (proj2 (proj2 (applicationContextName_last_octet Dlms.frameOnly
                         Dlms.scenario4Settings))
           (fst (fst (Dlms.EncodeAARQ Dlms.frameOnly Dlms.scenario4Settings)))
           (snd (Dlms.EncodeAARQ Dlms.frameOnly Dlms.scenario4Settings))
           eq_refl).
Defined.

(** C10 on a password of 300 bytes: 346 bytes follow the length byte,
    which holds 346 - 256 = 90. *)
Lemma EncodeAARQ_length_byte_witness :
  snd (fst (Dlms.EncodeAARQ Dlms.frameOnly Dlms.longPassword)) = None
  /\ len (fst (fst (Dlms.EncodeAARQ Dlms.frameOnly Dlms.longPassword))) - 2 = 346
  /\ fst (fst (Dlms.EncodeAARQ Dlms.frameOnly Dlms.longPassword)) !! 1%nat = Some 90
  /\ fst (fst (Dlms.EncodeAARQ Dlms.frameOnly Dlms.longPassword)) !! 1%nat
     <> Some (len (fst (fst (Dlms.EncodeAARQ Dlms.frameOnly Dlms.longPassword))) - 2).
Proof.
  pose proof (proj2 (EncodeAARQ_length_byte Dlms.frameOnly Dlms.longPassword)
                (fst (fst (Dlms.EncodeAARQ Dlms.frameOnly Dlms.longPassword)))
                (snd (Dlms.EncodeAARQ Dlms.frameOnly Dlms.longPassword))
                eq_refl) as [B [_ W]].
  assert (L : len (fst (fst (Dlms.EncodeAARQ Dlms.frameOnly Dlms.longPassword))) - 2
              = 346) by (vm_compute; reflexivity).
  split; [reflexivity | split; [exact L | split]].
  - rewrite B, L. reflexivity.
  - apply W. rewrite L. lia.
Defined.

(** ** Attribute descriptors *)

(** C5.  [AttributeDescriptor.Encode] never fails and returns nine bytes:
    the class id, most significant byte first, the six bytes of the OBIS
    code and the attribute id; [DecodeAttributeDescriptor] on a slice of
    fewer than nine bytes returns an error and leaves the slice as it is. *)
Theorem AttributeDescriptor_fixed_width (ad : Dlms.AttributeDescriptor) (ori : list Z) :
  (Dlms.AttributeDescriptor_Encode ad
     = (PutUint16 (Dlms.ClassID ad) ++ Dlms.Obis_Bytes (Dlms.InstanceID ad)
          ++ [byte (Dlms.AttributeID ad)], None)
   /\ length (fst (Dlms.AttributeDescriptor_Encode ad)) = 9%nat)
  /\ (len ori < 9 ->
      exists err,
        Dlms.DecodeAttributeDescriptor ori
        = Axdr.Returns
            ((Dlms.mkAttributeDescriptor 0 (Dlms.mkObis 0 0 0 0 0 0) 0, Some err), ori)).
Proof.
  split.
  - split; reflexivity.
  - intros H. unfold Dlms.DecodeAttributeDescriptor.
    destruct (Z.ltb_spec (len ori) 9) as [L | L]; [| lia].
    eexists. reflexivity.
Qed.

(** C5 on a slice of five bytes. *)
Lemma AttributeDescriptor_fixed_width_witness :
  len [0x00; 0x08; 0x00; 0x00; 0x01] < 9
  /\ exists err,
       Dlms.DecodeAttributeDescriptor [0x00; 0x08; 0x00; 0x00; 0x01]
       = Axdr.Returns
           ((Dlms.mkAttributeDescriptor 0 (Dlms.mkObis 0 0 0 0 0 0) 0, Some err),
            [0x00; 0x08; 0x00; 0x00; 0x01]).
Proof.
  assert (H : len [0x00; 0x08; 0x00; 0x00; 0x01] < 9) by (vm_compute; reflexivity).
  split; [exact H |].
  exact (proj2 (AttributeDescriptor_fixed_width DlmsClient.clockTime
                  [0x00; 0x08; 0x00; 0x00; 0x01]) H).
Defined.

(** ** Bulk Set *)

Section SetFacts.

Import DlmsClient.

Lemma setFields_step (flag : bool) (f : Field) (rest : list Field)
    (errSet : option error) (done failed : bool) :
  setFields flag (f :: rest) errSet done failed =
    match fieldOutcome f with
    | Skipped => setFields flag rest errSet done failed
    | DescriptorFailed err => Axdr.Returns (Some err)
    | SetDone => setFields flag rest errSet true failed
    | SetFailed err =>
        if hasCode err ErrorSetRejected && flag
        then setFields flag rest (Some err) done true
        else if done then Axdr.Returns (Some (dlmsError ErrorSetPartial))
             else Axdr.Returns (Some err)
    | SetPanicked p => Axdr.Panics p
    end.
Proof.
  unfold fieldOutcome. cbn [setFields].
  destruct (fieldDescriptor f) as [[ad |] [e |]]; try reflexivity.
  destruct (fieldIsPointer f && fieldIsNil f); [reflexivity |].
  destruct (setRequest (Some ad) f) as [[e |] | p]; reflexivity.
Qed.

(** Fields that are skipped or set only record that something was done. *)
Lemma setFields_quiet (flag : bool) (pre rest : list Field)
    (errSet : option error) (done failed : bool) :
  forallb isQuiet pre = true ->
  setFields flag (pre ++ rest) errSet done failed
  = setFields flag rest errSet (done || existsb isDone pre) failed.
Proof.
  revert done. induction pre as [| f pre IH]; intros done H.
  - simpl. rewrite orb_false_r. reflexivity.
  - simpl in H. apply andb_true_iff in H as [Hf Hpre].
    change ((f :: pre) ++ rest) with (f :: (pre ++ rest)).
    rewrite setFields_step. simpl existsb.
    unfold isQuiet in Hf. unfold isDone at 1.
    destruct (fieldOutcome f); try discriminate.
    + rewrite (IH done Hpre). reflexivity.
    + rewrite (IH true Hpre). simpl. rewrite orb_true_r. reflexivity.
Qed.

(** With the caller opted in, rejected Sets are recorded and passed over. *)
Lemma setFields_opted_in (fields : list Field)
    (errSet : option error) (done failed : bool) :
  forallb (fun f => isQuiet f || isRejected f) fields = true ->
  failed || existsb isRejected fields = true ->
  done || existsb isDone fields = true ->
  setFields true fields errSet done failed
  = Axdr.Returns (Some (dlmsError ErrorSetPartial)).
Proof.
  revert errSet done failed.
  induction fields as [| f fields IH]; intros errSet done failed HA HF HD.
  - simpl in *. rewrite orb_false_r in HF, HD. subst. reflexivity.
  - simpl in HA. apply andb_true_iff in HA as [Hf HA].
    rewrite setFields_step. simpl in HF, HD.
    unfold isQuiet, isRejected, isDone in *.
    destruct (fieldOutcome f) as [| e | | e | p]; simpl in *; try discriminate.
    + apply IH; assumption.
    + apply IH; [assumption | assumption | reflexivity].
    + rewrite Hf. simpl. apply IH; [assumption | reflexivity | assumption].
Qed.

(** C3, as amended.  [ErrorSetPartial] is returned in both modes.  With
    [continueOnSetRejected] false the loop stops at the first field whose
    descriptor or Set fails: a failed Set is returned as [ErrorSetPartial]
    when an earlier field was set, and as its own error when none was; a
    descriptor error is returned as it is; and nil is returned when every
    field is skipped or set.  With [continueOnSetRejected] true, when
    every field is skipped, set or rejected, some field set and some field
    rejected, the result is [ErrorSetPartial].  In each of these cases the
    call returns: no field before the one that decides makes [setRequest]
    panic. *)
Theorem SetRequestWithStructOfElements_partial :
  (forall pre f post err,
     forallb isQuiet pre = true ->
     fieldOutcome f = SetFailed err ->
     SetRequestWithStructOfElements false (Struct (pre ++ f :: post))
     = Axdr.Returns (if existsb isDone pre
                     then Some (dlmsError ErrorSetPartial) else Some err))
  /\ (forall pre f post err,
     forallb isQuiet pre = true ->
     fieldOutcome f = DescriptorFailed err ->
     SetRequestWithStructOfElements false (Struct (pre ++ f :: post))
     = Axdr.Returns (Some err))
  /\ (forall fields,
     forallb isQuiet fields = true ->
     SetRequestWithStructOfElements false (Struct fields) = Axdr.Returns None)
  /\ (forall fields,
     forallb (fun f => isQuiet f || isRejected f) fields = true ->
     existsb isRejected fields = true ->
     existsb isDone fields = true ->
     SetRequestWithStructOfElements true (Struct fields)
     = Axdr.Returns (Some (dlmsError ErrorSetPartial))).
Proof.
  unfold SetRequestWithStructOfElements. repeat split.
  - intros pre f post err Hq Hf.
    rewrite (setFields_quiet false pre (f :: post) None false false Hq).
    rewrite setFields_step, Hf. simpl.
    destruct (hasCode err ErrorSetRejected); simpl;
      destruct (existsb isDone pre); reflexivity.
  - intros pre f post err Hq Hf.
    rewrite (setFields_quiet false pre (f :: post) None false false Hq).
    rewrite setFields_step, Hf. reflexivity.
  - intros fields Hq.
    rewrite <- (app_nil_r fields).
    rewrite (setFields_quiet false fields [] None false false Hq). reflexivity.
  - intros fields HA HR HD. apply setFields_opted_in; assumption.
Qed.

End SetFacts.

(** C3 as stated fails: with the opt-in disabled, a Set that the meter
    rejects after an earlier Set succeeded is returned as ErrorSetPartial. *)
Lemma SetRequestWithStructOfElements_partial_without_opt_in :
  DlmsClient.SetRequestWithStructOfElements false
    (DlmsClient.Struct [DlmsClient.fieldWithReply 0; DlmsClient.fieldWithReply 3])
  = Axdr.Returns (Some (dlmsError ErrorSetPartial)).
Proof.
  reflexivity.
Qed.

(** C3 on three fields: set, rejected, set. *)
Lemma SetRequestWithStructOfElements_partial_witness :
  DlmsClient.SetRequestWithStructOfElements false
    (DlmsClient.Struct ([DlmsClient.fieldWithReply 0]
                          ++ DlmsClient.fieldWithReply 3
                          :: [DlmsClient.fieldWithReply 0]))
  = Axdr.Returns (Some (dlmsError ErrorSetPartial)).
Proof.
  exact (proj1 SetRequestWithStructOfElements_partial
           [DlmsClient.fieldWithReply 0] (DlmsClient.fieldWithReply 3)
           [DlmsClient.fieldWithReply 0] (dlmsError ErrorSetRejected)
           eq_refl eq_refl).
Defined.

(** ** The A-XDR encoder *)

Section EncodeFacts.

Import Axdr.

Variable enc : Encoders.

(** C9.  [Encode] of a [DlmsData] whose [Value] is nil panics with "Value
    to encode cannot be nil", whatever the tag, TagNull and TagDontCare
    included: it returns for no such value. *)
Theorem Encode_nil_value_panics (d : DlmsData) :
  Value d = VNil ->
  Encode enc d = Panics (PanicString "Value to encode cannot be nil")
  /\ forall r, Encode enc d <> Returns r.
Proof.
  intros H. destruct d as [tag v rv r0]. simpl in H. subst v.
  split; [reflexivity | intros r; discriminate].
Qed.

Lemma isTypedTag_In (tag : Z) : isTypedTag tag = true -> In tag typedTags.
Proof.
  unfold isTypedTag. intros H.
  apply existsb_exists in H as [t [Hin Heq]].
  apply Z.eqb_eq in Heq. subst t. exact Hin.
Qed.

Ltac each_typed_tag H :=
  apply isTypedTag_In in H; unfold typedTags in H; simpl In in H;
  repeat (destruct H as [H | H]; [subst |]); [.. | contradiction].

(** The case of a typed tag panics with [errDataType] on a value of
    another Go type. *)
Lemma Encode_type_assertion (d : DlmsData) :
  Value d <> VNil ->
  isTypedTag (Tag d) = true ->
  payloadMatches (Tag d) (Value d) = false ->
  Encode enc d = Panics (PanicDataType (Value d) (Tag d)).
Proof.
  destruct d as [tag v rv r0]. simpl Tag. simpl Value. intros HN HT HM.
  each_typed_tag HT;
    destruct v; try contradiction; try discriminate HM; reflexivity.
Qed.

(** The cases of TagNull and TagDontCare do not look at the value. *)
Lemma Encode_no_payload (d : DlmsData) :
  Value d <> VNil ->
  Tag d = TagNull \/ Tag d = TagDontCare ->
  Encode enc d
  = Returns ([byte (Tag d); 0],
             mkDlmsData (Tag d) (Value d) [0] [byte (Tag d); 0]).
Proof.
  destruct d as [tag v rv r0]. simpl Tag. simpl Value. intros HN [HT | HT];
    subst tag; destruct v; try contradiction; reflexivity.
Qed.

(** C6, as amended.  For a [DlmsData] with a [Value] that is not nil and
    whose Go type is not one its tag's payload may have: if the tag is one
    of the typed tags (Array to Time, CompactArray apart), [Encode] panics
    with the data type error and returns nothing; if the tag is TagNull or
    TagDontCare, which carry no payload, [Encode] returns the tag byte
    followed by [00], whatever the value. *)
Theorem Encode_payload_mismatch (d : DlmsData) :
  Value d <> VNil ->
  payloadMatches (Tag d) (Value d) = false ->
  (isTypedTag (Tag d) = true ->
   Encode enc d = Panics (PanicDataType (Value d) (Tag d)))
  /\ (Tag d = TagNull \/ Tag d = TagDontCare ->
      Encode enc d
      = Returns ([byte (Tag d); 0],
                 mkDlmsData (Tag d) (Value d) [0] [byte (Tag d); 0])).
Proof.
  intros HN HM. split.
  - intros HT. apply Encode_type_assertion; assumption.
  - intros HT. apply Encode_no_payload; assumption.
Qed.

End EncodeFacts.

(** C9 under TagNull and TagDontCare. *)
Lemma Encode_nil_value_panics_witness :
  Axdr.Encode (Axdr.specEncoders Axdr.parseNothing) (Axdr.newDlmsData Axdr.TagNull Axdr.VNil)
  = Axdr.Panics (PanicString "Value to encode cannot be nil")
  /\ Axdr.Encode (Axdr.specEncoders Axdr.parseNothing)
       (Axdr.newDlmsData Axdr.TagDontCare Axdr.VNil)
     = Axdr.Panics (PanicString "Value to encode cannot be nil").
Proof.
  split.
  - exact (proj1 (Encode_nil_value_panics (Axdr.specEncoders Axdr.parseNothing)
                    (Axdr.newDlmsData Axdr.TagNull Axdr.VNil) eq_refl)).
  - exact (proj1 (Encode_nil_value_panics (Axdr.specEncoders Axdr.parseNothing)
                    (Axdr.newDlmsData Axdr.TagDontCare Axdr.VNil) eq_refl)).
Defined.

(** C6 as stated fails: a boolean under TagNull, which has no payload, is
    encoded as [00 00] without a panic. *)
Lemma Encode_null_with_boolean :
  Axdr.payloadMatches Axdr.TagNull (Axdr.VBool true) = false
  /\ Axdr.Encode (Axdr.specEncoders Axdr.parseNothing)
       (Axdr.newDlmsData Axdr.TagNull (Axdr.VBool true))
     = Axdr.Returns ([0x00; 0x00],
         Axdr.mkDlmsData Axdr.TagNull (Axdr.VBool true) [0x00] [0x00; 0x00]).
Proof.
  split; reflexivity.
Qed.

(** C6 on a string under TagLongUnsigned. *)
Lemma Encode_payload_mismatch_witness :
  Axdr.Encode (Axdr.specEncoders Axdr.parseNothing)
    (Axdr.newDlmsData Axdr.TagLongUnsigned (Axdr.VString "12"))
  = Axdr.Panics (PanicDataType (Axdr.VString "12") Axdr.TagLongUnsigned).
Proof.
  assert (HN : Axdr.Value (Axdr.newDlmsData Axdr.TagLongUnsigned (Axdr.VString "12"))
               <> Axdr.VNil) by (simpl; discriminate).
  exact (proj1 (Encode_payload_mismatch (Axdr.specEncoders Axdr.parseNothing)
                  (Axdr.newDlmsData Axdr.TagLongUnsigned (Axdr.VString "12"))
                  HN eq_refl) eq_refl).
Defined.

(** ** Selective access descriptors *)

Section DecodeFacts.

Import Axdr.

Variable inRange : Z -> list Z -> bool.

(** When [k] elements decode and the next one does not, no longer run of
    elements decodes. *)
Lemma decodeElements_fails (decode : list Z -> CodecErrorKind + (DlmsData * list Z))
    (k n : nat) (src : list Z) (before : list DlmsData) (inner : list Z)
    (e : CodecErrorKind) :
  decodeElements decode k src = inr (before, inner) ->
  (k < n)%nat ->
  decode inner = inl e ->
  decodeElements decode n src = inl e.
Proof.
  revert n src before. induction k as [| k IH]; intros n src before Hk Hlt He.
  - simpl in Hk. injection Hk as _ Hs. subst inner.
    destruct n as [| n]; [lia |]. simpl. rewrite He. reflexivity.
  - destruct n as [| n]; [lia |]. simpl in Hk |- *.
    destruct (decode src) as [e0 | [d rest]]; [discriminate |].
    destruct (decodeElements decode k rest) as [e1 | [ds rest']] eqn:Hrest;
      [discriminate |].
    injection Hk as _ Hs. subst rest'.
    rewrite (IH n rest ds Hrest ltac:(lia) He). reflexivity.
Qed.

(** The decoder fails on a buffer with a poisoned length. *)
Lemma Decode_poisoned (depth : nat) (src : list Z) :
  Poisoned inRange depth src -> exists e, Decode inRange depth src = inl e.
Proof.
  induction 1 as [depth tag src n rest HL HD HP
                 | depth tag src n rest k before inner HS HD Hk HB HPo [e IH]].
  - destruct (isSequence tag) eqn:HS.
    + destruct depth as [| depth]; simpl; rewrite HS; [eauto |].
      rewrite HD. destruct (Z.gtb_spec (payloadBytes tag n) (len rest)); [eauto | lia].
    + destruct depth; simpl; rewrite HS; unfold decodeScalar;
        unfold hasLength in HL; rewrite HS in HL; simpl in HL; rewrite HL, HD;
        destruct (Z.gtb_spec (payloadBytes tag n) (len rest)); eauto; lia.
  - simpl. rewrite HS, HD.
    destruct (payloadBytes tag n >? len rest); [eauto |].
    rewrite (decodeElements_fails _ k (Z.to_nat n) rest before inner e HB Hk IH).
    eauto.
Qed.

(** C7.  Whenever [DecodeSelectiveAccessDescriptor] returns an error, the
    caller's slice is what it was; and on a slice whose parameter has a
    poisoned length it returns an error. *)
Theorem DecodeSelectiveAccessDescriptor_poisoned :
  (forall ori out err rest,
     Dlms.DecodeSelectiveAccessDescriptor inRange ori = ((out, Some err), rest) ->
     rest = ori)
  /\ (forall selector src,
     Poisoned inRange maxDepth src ->
     exists e,
       Dlms.DecodeSelectiveAccessDescriptor inRange (selector :: src)
       = ((Dlms.mkSelectiveAccessDescriptor 0 (newDlmsData 0 VNil),
           Some (errorCodec e)), selector :: src)).
Proof.
  split.
  - intros ori out err rest H. unfold Dlms.DecodeSelectiveAccessDescriptor in H.
    destruct ori as [| selector src]; [congruence |].
    destruct (Decode inRange maxDepth src) as [e | [parameter src']]; [congruence |].
    destruct (Dlms.parameterShape selector parameter); congruence.
  - intros selector src HP.
    destruct (Decode_poisoned maxDepth src HP) as [e He].
    exists e. unfold Dlms.DecodeSelectiveAccessDescriptor. rewrite He. reflexivity.
Qed.

End DecodeFacts.

(** The length of the third element of [poisonedEntry] is poisoned. *)
Lemma poisonedEntry_poisoned :
  Axdr.Poisoned Axdr.anyDate Axdr.maxDepth (tail Dlms.poisonedEntry).
Proof.
  eapply (Axdr.PoisonedInside Axdr.anyDate 15 0x02 _ 4 _ 2).
  - reflexivity.
  - reflexivity.
  - vm_compute. lia.
  - reflexivity.
  - eapply (Axdr.PoisonedHere Axdr.anyDate 15 0x09 _ 127).
    + reflexivity.
    + reflexivity.
    + vm_compute. reflexivity.
Defined.

(** C7 on [poisonedEntry]. *)
Lemma DecodeSelectiveAccessDescriptor_poisoned_witness :
  exists e,
    Dlms.DecodeSelectiveAccessDescriptor Axdr.anyDate Dlms.poisonedEntry
    = ((Dlms.mkSelectiveAccessDescriptor 0 (Axdr.newDlmsData 0 Axdr.VNil),
        Some (errorCodec e)), Dlms.poisonedEntry).
Proof.
  exact (proj2 (DecodeSelectiveAccessDescriptor_poisoned Axdr.anyDate)
           0x02 (tail Dlms.poisonedEntry) poisonedEntry_poisoned).
Defined.

(** The three buffers of [TestSelectiveAccessDescriptor_Decode]: the first
    two decode and use up the buffer, the third fails and is left whole. *)
Lemma DecodeSelectiveAccessDescriptor_test :
  (let r := Dlms.DecodeSelectiveAccessDescriptor Axdr.anyDate
              [2; 2; 4; 6; 0; 0; 0; 0; 6; 0; 0; 0; 5; 18; 0; 0; 18; 0; 0] in
   snd (fst r) = None /\ snd r = []
   /\ Dlms.AccessSelector (fst (fst r)) = Dlms.AccessSelectorEntry)
  /\ (let r := Dlms.DecodeSelectiveAccessDescriptor Axdr.anyDate
              [1; 2; 4; 2; 4; 18; 0; 8; 9; 6; 0; 0; 1; 0; 0; 255; 15; 2; 18;
               0; 0; 9; 12; 7; 228; 1; 1; 3; 10; 0; 0; 0; 0; 0; 0; 9; 12; 7;
               228; 1; 1; 3; 11; 0; 0; 0; 0; 0; 0; 1; 0] in
   snd (fst r) = None /\ snd r = []
   /\ Dlms.AccessSelector (fst (fst r)) = Dlms.AccessSelectorRange)
  /\ (let r := Dlms.DecodeSelectiveAccessDescriptor Axdr.anyDate
              [2; 2; 4; 6; 0; 0; 0; 0; 6; 0; 0; 0; 5; 255; 0; 0; 18; 0; 0] in
   snd (fst r) = Some (errorCodec TagMismatch)
   /\ snd r = [2; 2; 4; 6; 0; 0; 0; 0; 6; 0; 0; 0; 5; 255; 0; 0; 18; 0; 0]).
Proof.
  repeat split.
Qed.

(** ** Further properties of the code *)

Section MoreAarqFacts.

Import Dlms.

Variable CipherData : Cipher -> list Z -> list Z * option error.

(** X1.  On an association without ciphering [EncodeAARQ] leaves the settings,
    the invocation counter among them, as they were. *)
Theorem EncodeAARQ_plain_keeps_settings (s : Settings) :
  Security (Ciphering_ s) = SecurityNone ->
  snd (EncodeAARQ CipherData s) = s.
Proof.
  intros HS. destruct (snd (generateAuthentication s)) as [e |] eqn:HA.
  - rewrite EncodeAARQ_no_password by congruence. reflexivity.
  - rewrite (EncodeAARQ_plain CipherData s HS HA). reflexivity.
Qed.

(** X2.  [TestEncodeAARQWithLowAuthentication]: the AARQ of Low authentication
    with the password "12345678", and the error once the password is
    removed. *)
Theorem EncodeAARQ_low_authentication :
  fst (EncodeAARQ CipherData lowAuthenticationSettings)
    = ([0x60; 0x36; 0xA1; 0x09; 0x06; 0x07; 0x60; 0x85; 0x74; 0x05; 0x08;
        0x01; 0x01; 0x8A; 0x02; 0x07; 0x80; 0x8B; 0x07; 0x60; 0x85; 0x74;
        0x05; 0x08; 0x02; 0x01; 0xAC; 0x0A; 0x80; 0x08; 0x31; 0x32; 0x33;
        0x34; 0x35; 0x36; 0x37; 0x38; 0xBE; 0x10; 0x04; 0x0E; 0x01; 0x00;
        0x00; 0x00; 0x06; 0x5F; 0x1F; 0x04; 0x00; 0x00; 0x18; 0x1F; 0x01;
        0x00], None)
  /\ fst (EncodeAARQ CipherData
            (mkSettings AuthenticationLow [] (Ciphering_ lowAuthenticationSettings)
               (MaxPduSize lowAuthenticationSettings)))
    = ([], Some errPasswordRequired).
Proof.
  split.
  - rewrite EncodeAARQ_plain by reflexivity. reflexivity.
  - rewrite EncodeAARQ_no_password by discriminate. reflexivity.
Qed.

(** X3.  [TestEncodeAARQWithLowAuthenticationAndCipher]: whatever 50 bytes
    [CipherData] returns for the initiate request of scenario 4, the AARQ
    is the 54 bytes of the test's expected value that precede them,
    followed by them; and [CipherData] is handed the GLO initiate request
    tag, the counter [0x00000107] and the initiate request with the
    dedicated key. *)
Theorem EncodeAARQ_scenario4_frame (c : list Z) :
  CipherData (initiateRequestCipher scenario4Settings)
    (getInitiateRequest scenario4Settings) = (c, None) ->
  len c = 50 ->
  fst (EncodeAARQ CipherData scenario4Settings)
    = ([0x60; 0x66; 0xA1; 0x09; 0x06; 0x07; 0x60; 0x85; 0x74; 0x05; 0x08;
        0x01; 0x03; 0xA6; 0x0A; 0x04; 0x08; 0x43; 0x49; 0x52; 0x00; 0x00;
        0x00; 0x00; 0x01; 0x8A; 0x02; 0x07; 0x80; 0x8B; 0x07; 0x60; 0x85;
        0x74; 0x05; 0x08; 0x02; 0x01; 0xAC; 0x0A; 0x80; 0x08; 0x4A; 0x75;
        0x53; 0x36; 0x36; 0x42; 0x43; 0x5A; 0xBE; 0x34; 0x04; 0x32] ++ c, None)
  /\ Cipher_Tag (initiateRequestCipher scenario4Settings) = 0x21
  /\ Cipher_FrameCounter (initiateRequestCipher scenario4Settings) = 0x00000107
  /\ getInitiateRequest scenario4Settings
     = [0x01; 0x01; 0x10; 0xE8; 0x03; 0x73; 0x9D; 0xBE; 0x33; 0x8C; 0x3A;
        0x79; 0x0D; 0x8D; 0x1B; 0x12; 0xC6; 0x3F; 0xE2; 0x00; 0x00; 0x06;
        0x5F; 0x1F; 0x04; 0x00; 0x00; 0x18; 0x1F; 0x02; 0x00].
Proof.
  intros HC HL. split; [| repeat split].
  rewrite EncodeAARQ_ciphered; [| discriminate | reflexivity].
  rewrite HC. cbn [fst]. unfold aarqBytes. cbv zeta.
  assert (E : len (aarqBody scenario4Settings c) - 2 = 0x66).
  { unfold aarqBody, len in *. repeat rewrite length_app. simpl length. lia. }
  rewrite E. unfold aarqBody. rewrite HL. reflexivity.
Qed.

End MoreAarqFacts.

(** X1 on the settings of Low authentication. *)
Lemma EncodeAARQ_plain_keeps_settings_witness :
  snd (Dlms.EncodeAARQ Dlms.frameOnly Dlms.lowAuthenticationSettings)
  = Dlms.lowAuthenticationSettings.
Proof.
  exact (EncodeAARQ_plain_keeps_settings Dlms.frameOnly
           Dlms.lowAuthenticationSettings eq_refl).
Defined.

(** X3 with the ciphered bytes of the test: its whole expected AARQ. *)
Lemma EncodeAARQ_scenario4_frame_witness :
  fst (Dlms.EncodeAARQ (fun _ _ => (Dlms.scenario4Ciphered, None))
         Dlms.scenario4Settings)
  = ([0x60; 0x66; 0xA1; 0x09; 0x06; 0x07; 0x60; 0x85; 0x74; 0x05; 0x08;
      0x01; 0x03; 0xA6; 0x0A; 0x04; 0x08; 0x43; 0x49; 0x52; 0x00; 0x00;
      0x00; 0x00; 0x01; 0x8A; 0x02; 0x07; 0x80; 0x8B; 0x07; 0x60; 0x85;
      0x74; 0x05; 0x08; 0x02; 0x01; 0xAC; 0x0A; 0x80; 0x08; 0x4A; 0x75;
      0x53; 0x36; 0x36; 0x42; 0x43; 0x5A; 0xBE; 0x34; 0x04; 0x32]
       ++ Dlms.scenario4Ciphered, None).
Proof.
  exact (proj1 (EncodeAARQ_scenario4_frame
                  (fun _ _ => (Dlms.scenario4Ciphered, None))
                  Dlms.scenario4Ciphered eq_refl eq_refl)).
Defined.

Section MoreEncodeFacts.

Import Axdr.

Variable enc : Encoders.

(** X4.  The [switch] of [Encode] has no default: under a tag that none of its
    cases names, a value that is not nil is encoded, without a panic, as
    the tag byte followed by whatever [rawValue] held, nothing for a value
    that was never encoded. *)
Theorem Encode_undeclared_tag_silent (d : DlmsData) :
  Value d <> VNil ->
  isDeclaredTag (Tag d) = false ->
  Encode enc d
  = Returns (byte (Tag d) :: rawValue d,
             mkDlmsData (Tag d) (Value d) (rawValue d) (byte (Tag d) :: rawValue d)).
Proof.
  destruct d as [tag v rv r0]. simpl Tag. simpl Value. simpl rawValue.
  intros HN HT. unfold isDeclaredTag, declaredTags, typedTags in HT.
  cbn [existsb] in HT.
  repeat (apply orb_false_iff in HT as [? HT]).
  destruct v; try contradiction;
    cbn [Encode Tag Value rawValue];
    repeat match goal with
           | H : (tag =? _) = false |- _ => rewrite H; clear H
           end; cbv iota; reflexivity.
Qed.

End MoreEncodeFacts.

(** X4 on a boolean under tag 8. *)
Lemma Encode_undeclared_tag_silent_witness :
  Axdr.Encode (Axdr.specEncoders Axdr.parseNothing)
    (Axdr.newDlmsData 8 (Axdr.VBool true))
  = Axdr.Returns ([8], Axdr.mkDlmsData 8 (Axdr.VBool true) [] [8]).
Proof.
  assert (HN : Axdr.Value (Axdr.newDlmsData 8 (Axdr.VBool true)) <> Axdr.VNil)
    by (simpl; discriminate).
  exact (Encode_undeclared_tag_silent (Axdr.specEncoders Axdr.parseNothing)
           (Axdr.newDlmsData 8 (Axdr.VBool true)) HN eq_refl).
Defined.

(** X5.  Decoding what [AttributeDescriptor.Encode] returned, with any bytes
    after it, gives the descriptor back and leaves the caller's slice at
    the bytes that followed. *)
Theorem DecodeAttributeDescriptor_Encode (ad : Dlms.AttributeDescriptor) (rest : list Z) :
  0 <= Dlms.ClassID ad < 65536 ->
  Forall (fun b => 0 <= b < 256)
    [Dlms.obisA (Dlms.InstanceID ad); Dlms.obisB (Dlms.InstanceID ad);
     Dlms.obisC (Dlms.InstanceID ad); Dlms.obisD (Dlms.InstanceID ad);
     Dlms.obisE (Dlms.InstanceID ad); Dlms.obisF (Dlms.InstanceID ad)] ->
  -128 <= Dlms.AttributeID ad < 128 ->
  Dlms.DecodeAttributeDescriptor (fst (Dlms.AttributeDescriptor_Encode ad) ++ rest)
  = Axdr.Returns ((ad, None), rest).
Proof.
  destruct ad as [c [a1 a2 a3 a4 a5 a6] attr]. simpl.
  intros HC HO HA.
  repeat match goal with
         | H : Forall _ (_ :: _) |- _ =>
             let Hx := fresh "Hb" in
             apply Forall_cons in H as [Hx H]
         end.
  unfold Dlms.DecodeAttributeDescriptor, Dlms.Obis_Bytes, PutUint16, uint16, byte.
  rewrite (Z.mod_small c 65536) by lia.
  rewrite (Z.mod_small a1), (Z.mod_small a2), (Z.mod_small a3),
    (Z.mod_small a4), (Z.mod_small a5), (Z.mod_small a6) by lia.
  cbn [app].
  match goal with
  | |- context [len ?l <? 9] =>
      destruct (Z.ltb_spec (len l) 9) as [L | L];
        [unfold len in L; simpl length in L; lia | clear L]
  end.
  unfold Axdr.DecodeLongUnsigned.
  match goal with
  | |- context [len ?l <? 2] =>
      destruct (Z.ltb_spec (len l) 2) as [L | L];
        [unfold len in L; simpl length in L; lia | clear L]
  end.
  cbn [take drop Dlms.DecodeObis Dlms.ClassID Dlms.InstanceID Dlms.AttributeID
         length].
  replace (S (S (S (S (S (S (S (S (S (length rest))))))))) - length rest)%nat
    with 9%nat by lia.
  cbn [drop]. unfold Axdr.fromBigEndian, Axdr.toSigned, byte. cbn [fold_left].
  repeat f_equal.
  - rewrite (Z.mod_small (c / 256)) by (split; [apply Z.div_pos; lia
                                                | apply Z.div_lt_upper_bound; lia]).
    pose proof (Z.div_mod c 256). lia.
  - rewrite Zmod_mod.
    destruct (Z.ltb_spec (attr mod 256) (2 ^ (8 - 1))) as [L | L].
    + destruct (Z.lt_ge_cases attr 0) as [N | N].
      * assert (attr mod 256 = attr + 256)
          by (symmetry; apply (Z.mod_unique_pos attr 256 (-1)); lia).
        change (2 ^ (8 - 1)) with 128 in L. lia.
      * apply Z.mod_small. lia.
    + destruct (Z.lt_ge_cases attr 0) as [N | N].
      * assert (attr mod 256 = attr + 256)
          by (symmetry; apply (Z.mod_unique_pos attr 256 (-1)); lia).
        change (2 ^ 8) with 256. lia.
      * rewrite Z.mod_small in L by lia. change (2 ^ (8 - 1)) with 128 in L. lia.
Qed.

(** X5 on the descriptor of the clock's time, two bytes following. *)
Lemma DecodeAttributeDescriptor_Encode_witness :
  Dlms.DecodeAttributeDescriptor
    (fst (Dlms.AttributeDescriptor_Encode DlmsClient.clockTime) ++ [0x01; 0x02])
  = Axdr.Returns ((DlmsClient.clockTime, None), [0x01; 0x02]).
Proof.
  apply DecodeAttributeDescriptor_Encode.
  - simpl. lia.
  - repeat constructor; simpl; lia.
  - simpl. lia.
Defined.

(** ** More on the AARQ *)

Section AarqErrors.

Import Dlms.

Variable CipherData : Cipher -> list Z -> list Z * option error.

(** Every successful AARQ is [aarqBytes] of the initiate request sent. *)
Lemma EncodeAARQ_success (s s' : Settings) (out : list Z) :
  EncodeAARQ CipherData s = ((out, None), s') ->
  out = aarqBytes s (sentInitiateRequest CipherData s).
Proof.
  intros H. unfold sentInitiateRequest.
  destruct (snd (generateAuthentication s)) as [e |] eqn:HA.
  - rewrite EncodeAARQ_no_password in H by congruence. discriminate.
  - destruct (Z.eqb_spec (Security (Ciphering_ s)) SecurityNone) as [HS | HS].
    + rewrite (EncodeAARQ_plain CipherData s HS HA) in H. congruence.
    + rewrite (EncodeAARQ_ciphered CipherData s HS HA) in H.
      destruct (CipherData _ _) as [c [e |]]; [discriminate |].
      simpl fst. congruence.
Qed.

(** X6.  [EncodeAARQ] fails in exactly two ways: authentication is
    requested and the password is empty, or ciphering is on and
    [CipherData] fails; and whenever it fails it returns no bytes. *)
Theorem EncodeAARQ_error_iff (s : Settings) :
  (snd (fst (EncodeAARQ CipherData s)) = None
   <-> (Authentication s = AuthenticationNone \/ Password s <> [])
       /\ (Security (Ciphering_ s) = SecurityNone
           \/ snd (CipherData (initiateRequestCipher s) (getInitiateRequest s)) = None))
  /\ (snd (fst (EncodeAARQ CipherData s)) <> None ->
      fst (fst (EncodeAARQ CipherData s)) = []).
Proof.
  rewrite <- generateAuthentication_ok.
  destruct (snd (generateAuthentication s)) as [e |] eqn:HA.
  - rewrite EncodeAARQ_no_password by congruence. simpl.
    split; [split; [discriminate | intros [H _]; discriminate] | reflexivity].
  - destruct (Z.eqb_spec (Security (Ciphering_ s)) SecurityNone) as [HS | HS].
    + rewrite (EncodeAARQ_plain CipherData s HS HA). simpl.
      split; [tauto | congruence].
    + rewrite (EncodeAARQ_ciphered CipherData s HS HA).
      destruct (CipherData _ _) as [c [e |]]; simpl.
      * split; [split; [discriminate | intros [_ [H | H]]; congruence]
               | reflexivity].
      * split; [tauto | congruence].
Qed.

(** X7.  Without ciphering nothing of the keys reaches the AARQ: the
    result of [EncodeAARQ] is the same whatever the unicast key, the
    authentication key, the dedicated key and the invocation counter. *)
Theorem EncodeAARQ_plain_ignores_keys (s : Settings)
    (unicastKey authenticationKey dedicatedKey : list Z) (invocationCounter : Z) :
  Security (Ciphering_ s) = SecurityNone ->
  fst (EncodeAARQ CipherData
         (withKeys s unicastKey authenticationKey dedicatedKey invocationCounter))
  = fst (EncodeAARQ CipherData s).
Proof.
  intros HS.
  set (s2 := withKeys s unicastKey authenticationKey dedicatedKey invocationCounter).
  assert (HS2 : Security (Ciphering_ s2) = SecurityNone) by exact HS.
  assert (GA : generateAuthentication s2 = generateAuthentication s) by reflexivity.
  assert (GN : generateApplicationContextName s2 = generateApplicationContextName s)
    by reflexivity.
  assert (GI : getInitiateRequest s2 = getInitiateRequest s).
  { unfold getInitiateRequest. rewrite HS2, HS. reflexivity. }
  destruct (snd (generateAuthentication s)) as [e |] eqn:HA.
  - rewrite !EncodeAARQ_no_password by congruence. reflexivity.
  - rewrite (EncodeAARQ_plain CipherData s HS HA).
    rewrite (EncodeAARQ_plain CipherData s2 HS2) by congruence.
    unfold aarqBytes, aarqBody. rewrite GA, GN, GI. reflexivity.
Qed.

(** X8.  The invocation counter is a [uint32]: on a ciphered association
    whose authentication fields encode, [EncodeAARQ] takes a counter below
    [0xFFFFFFFF] to its successor and the counter [0xFFFFFFFF] back to 0. *)
Theorem EncodeAARQ_counter_wraps (s : Settings) :
  Security (Ciphering_ s) <> SecurityNone ->
  Authentication s = AuthenticationNone \/ Password s <> [] ->
  0 <= InvocationCounter (Ciphering_ s) <= 0xFFFFFFFF ->
  (InvocationCounter (Ciphering_ s) < 0xFFFFFFFF ->
   InvocationCounter (Ciphering_ (snd (EncodeAARQ CipherData s)))
   = InvocationCounter (Ciphering_ s) + 1)
  /\ (InvocationCounter (Ciphering_ s) = 0xFFFFFFFF ->
      InvocationCounter (Ciphering_ (snd (EncodeAARQ CipherData s))) = 0).
Proof.
  intros HS HA HR. apply generateAuthentication_ok in HA.
  assert (E : snd (EncodeAARQ CipherData s) = incrInvocationCounter s).
  { rewrite (EncodeAARQ_ciphered CipherData s HS HA).
    destruct (CipherData _ _) as [c [e |]]; reflexivity. }
  rewrite E. simpl. unfold uint32. split; intros H.
  - apply Z.mod_small. lia.
  - rewrite H. reflexivity.
Qed.

(** X9.  The calling authentication value declares the length of the
    password in one byte, and the length of the field in another: both
    are exact for a password of at most 253 bytes, and the field length
    is wrong for a longer one.  The mechanism name ends in the
    authentication mode. *)
Theorem generateAuthentication_lengths (s : Settings) :
  Authentication s <> AuthenticationNone ->
  len (fst (generateAuthentication s)) = 17 + len (Password s)
  /\ fst (generateAuthentication s) !! 12%nat = Some (byte (Authentication s))
  /\ fst (generateAuthentication s) !! 14%nat = Some (byte (2 + len (Password s)))
  /\ fst (generateAuthentication s) !! 16%nat = Some (byte (len (Password s)))
  /\ drop 17 (fst (generateAuthentication s)) = Password s
  /\ (len (Password s) <= 253 ->
      fst (generateAuthentication s) !! 14%nat = Some (2 + len (Password s))
      /\ fst (generateAuthentication s) !! 16%nat = Some (len (Password s)))
  /\ (len (Password s) > 253 ->
      fst (generateAuthentication s) !! 14%nat <> Some (2 + len (Password s))).
Proof.
  intros HA. unfold generateAuthentication.
  destruct (Z.eqb_spec (Authentication s) AuthenticationNone) as [E | E]; [tauto |].
  simpl negb. cbv iota. cbv zeta. cbn [fst].
  assert (P : 0 <= len (Password s)) by (unfold len; lia).
  cbn. repeat apply conj; try reflexivity.
  - unfold len in *. simpl length. lia.
  - intros H. unfold byte. rewrite !Z.mod_small by lia. split; reflexivity.
  - intros H. unfold byte. intros W. injection W as W.
    pose proof (Z.mod_pos_bound (2 + len (Password s)) 256). lia.
Qed.

End AarqErrors.

Section AarqFields.

Import Dlms.

Variable CipherData : Cipher -> list Z -> list Z * option error.

(** The reader finds the fields that [berEncode] wrote. *)
Lemma berFields_berEncode (fields : list (Z * list Z)) (fuel : nat) :
  Forall (fun f => len (snd f) < 0x80) fields ->
  (length fields <= fuel)%nat ->
  berFields fuel (berEncode fields) = Some fields.
Proof.
  revert fuel. induction fields as [| [tag v] fields IH]; intros fuel HF HL.
  - destruct fuel; reflexivity.
  - apply Forall_cons in HF as [Hv HF]. simpl in Hv, HL.
    destruct fuel as [| fuel]; [lia |].
    unfold berEncode. simpl concat. fold (berEncode fields).
    cbn [berFields fst snd].
    assert (N : 0 <= len v) by (unfold len; lia).
    assert (A : len v <= len (v ++ berEncode fields))
      by (unfold len; rewrite length_app; lia).
    destruct (Z.leb_spec 0 (len v)); [| lia].
    destruct (Z.ltb_spec (len v) 128); [| lia].
    destruct (Z.leb_spec (len v) (len (v ++ berEncode fields))); [| lia].
    cbn [andb].
    replace (Z.to_nat (len v)) with (length v) by (unfold len; lia).
    rewrite take_app_length, drop_app_length.
    rewrite IH by (assumption || lia). reflexivity.
Qed.

(** Every field takes at least its tag and its length byte. *)
Lemma berEncode_fields (fields : list (Z * list Z)) :
  (length fields <= length (berEncode fields))%nat.
Proof.
  induction fields as [| f fields IH]; [apply Nat.le_refl |].
  unfold berEncode in *. simpl. rewrite length_app. lia.
Qed.

(** What follows the length byte of the AARQ is the sequence of its
    fields, when the lengths written as constants and in single bytes are
    the lengths of the values. *)
Lemma aarqBody_berEncode (s : Settings) (c : list Z) :
  SystemTitle (Ciphering_ s) = [] \/ len (SystemTitle (Ciphering_ s)) = 8 ->
  Authentication s = AuthenticationNone \/ len (Password s) <= 253 ->
  len c <= 253 ->
  drop 2 (aarqBody s c) = berEncode (aarqFields s c).
Proof.
  intros HT HP HC. unfold aarqBody, aarqFields, berEncode.
  unfold generateApplicationContextName, generateAuthentication.
  assert (P0 : 0 <= len (Password s)) by (unfold len; lia).
  assert (C0 : 0 <= len c) by (unfold len; lia).
  assert (B3 : byte (2 + len c) = 2 + len c) by (apply Z.mod_small; lia).
  assert (B4 : byte (len c) = len c) by (apply Z.mod_small; lia).
  assert (L1 : len (128 :: len (Password s) :: Password s) = 2 + len (Password s))
    by (unfold len; simpl length; lia).
  assert (L2 : len (4 :: len c :: c) = 2 + len c)
    by (unfold len; simpl length; lia).
  rewrite B3, B4.
  destruct (Z.eqb_spec (Authentication s) AuthenticationNone) as [EA | EA].
  - destruct HT as [HT | HT].
    + rewrite HT. change (len (@nil Z)) with 0.
      destruct (Security (Ciphering_ s) =? SecurityNone);
        cbn; rewrite ?L2, ?app_nil_r; reflexivity.
    + assert (L3 : len (4 :: 8 :: SystemTitle (Ciphering_ s)) = 10)
        by (unfold len in *; simpl length; lia).
      rewrite HT.
      destruct (Security (Ciphering_ s) =? SecurityNone);
        cbn; rewrite ?L2, ?L3, ?app_nil_r, <- ?app_assoc; reflexivity.
  - assert (HP' : len (Password s) <= 253) by (destruct HP; [contradiction | lia]).
    assert (B1 : byte (2 + len (Password s)) = 2 + len (Password s))
      by (apply Z.mod_small; lia).
    assert (B2 : byte (len (Password s)) = len (Password s))
      by (apply Z.mod_small; lia).
    rewrite B1, B2.
    destruct HT as [HT | HT].
    + rewrite HT. change (len (@nil Z)) with 0.
      destruct (Security (Ciphering_ s) =? SecurityNone);
        cbn; rewrite ?L1, ?L2, ?app_nil_r; reflexivity.
    + assert (L3 : len (4 :: 8 :: SystemTitle (Ciphering_ s)) = 10)
        by (unfold len in *; simpl length; lia).
      rewrite HT.
      destruct (Security (Ciphering_ s) =? SecurityNone);
        cbn; rewrite ?L1, ?L2, ?L3, ?app_nil_r, <- ?app_assoc; reflexivity.
Qed.

(** The AARQ is at least as long as its fixed bytes, the password if
    authentication is requested, and the initiate request. *)
Lemma aarqBody_length (s : Settings) (c : list Z) :
  17 + len c
  + (if Authentication s =? AuthenticationNone then 0 else 17 + len (Password s))
  <= len (aarqBody s c).
Proof.
  unfold aarqBody, generateApplicationContextName, generateAuthentication, len.
  destruct (Authentication s =? AuthenticationNone);
    destruct (_ && _); destruct (_ >? 0);
    cbn [negb fst]; rewrite ?length_app; simpl length;
    rewrite ?length_app; simpl length; lia.
Qed.

(** X10.  A successful AARQ whose lengths fit is well-formed BER.  When
    the system title is absent or 8 bytes long and the AARQ is at most 129
    bytes long, so that the length of its body takes the one byte of the
    short form, the output reads as one field of tag [0x60], and the value
    of that field reads back, field by field, as the application context
    name, the calling AP title (if a system title is set), the three
    authentication fields (if authentication is requested) and the user
    information, each with the length its value has. *)
Theorem EncodeAARQ_ber_fields (s s' : Settings) (out : list Z) :
  EncodeAARQ CipherData s = ((out, None), s') ->
  SystemTitle (Ciphering_ s) = [] \/ len (SystemTitle (Ciphering_ s)) = 8 ->
  len out <= 129 ->
  exists body,
    berFields (length out) out = Some [(0x60, body)]
    /\ berFields (length body) body
       = Some (aarqFields s (sentInitiateRequest CipherData s)).
Proof.
  intros H HT HL. apply EncodeAARQ_success in H.
  set (c := sentInitiateRequest CipherData s) in *.
  assert (LB : len out = len (aarqBody s c))
    by (subst out; unfold aarqBytes, len; cbv zeta; rewrite length_insert;
        reflexivity).
  pose proof (aarqBody_length s c) as LA.
  assert (P0 : 0 <= len (Password s)) by (unfold len; lia).
  assert (C0 : 0 <= len c) by (unfold len; lia).
  assert (HP : Authentication s = AuthenticationNone \/ len (Password s) <= 125).
  { destruct (Z.eqb_spec (Authentication s) AuthenticationNone); [auto | lia]. }
  assert (HC : len c <= 125)
    by (destruct (Authentication s =? AuthenticationNone); lia).
  assert (E : aarqBody s c = [0x60; 0x00] ++ drop 2 (aarqBody s c))
    by reflexivity.
  set (body := drop 2 (aarqBody s c)) in *.
  assert (L : len (aarqBody s c) - 2 = len body)
    by (rewrite E at 1; unfold len; rewrite length_app; simpl length; lia).
  assert (O : out = [0x60; len body] ++ body).
  { subst out. unfold aarqBytes. cbv zeta. rewrite L, E.
    unfold byte. rewrite Z.mod_small by (unfold len in *; lia). reflexivity. }
  exists body. split.
  - assert (N : length out = S (S (length body))) by (rewrite O; reflexivity).
    rewrite N, O. cbn [app berFields].
    destruct (Z.leb_spec 0 (len body)); [| unfold len in *; lia].
    destruct (Z.ltb_spec (len body) 128); [| unfold len in *; lia].
    destruct (Z.leb_spec (len body) (len body)); [| lia].
    cbn [andb].
    replace (Z.to_nat (len body)) with (length body) by (unfold len; lia).
    rewrite firstn_all, drop_all. reflexivity.
  - subst body.
    rewrite aarqBody_berEncode by (assumption || lia || (destruct HP; [auto | right; lia])).
    apply berFields_berEncode.
    + unfold aarqFields.
      repeat (apply Forall_app; split);
        repeat match goal with
               | |- Forall _ (if ?b then _ else _) => destruct b eqn:?
               | |- Forall _ (_ :: _) => apply Forall_cons; split
               | |- Forall _ [] => apply Forall_nil
               end;
        cbn [snd]; unfold len in *; simpl length;
        try rewrite length_app; simpl length; try lia.
      destruct HT as [HT | HT]; [rewrite HT; simpl; lia | lia].
    + apply berEncode_fields.
Qed.

End AarqFields.

(** X10 on scenario 4, with the ciphered bytes of the test. *)
Lemma EncodeAARQ_ber_fields_witness :
  exists body,
    Dlms.berFields
      (length (fst (fst (Dlms.EncodeAARQ
                           (fun _ _ => (Dlms.scenario4Ciphered, None))
                           Dlms.scenario4Settings))))
      (fst (fst (Dlms.EncodeAARQ (fun _ _ => (Dlms.scenario4Ciphered, None))
                   Dlms.scenario4Settings)))
    = Some [(0x60, body)]
    /\ Dlms.berFields (length body) body
       = Some (Dlms.aarqFields Dlms.scenario4Settings
                 (Dlms.sentInitiateRequest
                    (fun _ _ => (Dlms.scenario4Ciphered, None))
                    Dlms.scenario4Settings)).
Proof.
  apply (EncodeAARQ_ber_fields (fun _ _ => (Dlms.scenario4Ciphered, None))
           Dlms.scenario4Settings
           (snd (Dlms.EncodeAARQ (fun _ _ => (Dlms.scenario4Ciphered, None))
                   Dlms.scenario4Settings))
           (fst (fst (Dlms.EncodeAARQ (fun _ _ => (Dlms.scenario4Ciphered, None))
                        Dlms.scenario4Settings)))).
  - reflexivity.
  - right. reflexivity.
  - vm_compute. discriminate.
Defined.

(** ** More on the A-XDR encoder *)

Section EncodeState.

Import Axdr.

Variable enc : Encoders.

Lemma writeRaw_inv (tag : Z) (v : GoValue DlmsData) (dl rv b : list Z)
    (d' : DlmsData) :
  writeRaw tag v dl rv = Returns (b, d') ->
  d' = mkDlmsData tag v rv b /\ b = byte tag :: dl ++ rv.
Proof.
  unfold writeRaw. intros H.
  destruct (Z.gtb_spec (len dl) 0) as [L | L]; injection H as Hb Hd; subst.
  - split; reflexivity.
  - assert (dl = [])
      by (destruct dl; [reflexivity | unfold len in L; simpl in L; lia]).
    subst dl. split; reflexivity.
Qed.

(** The test on the length of [dataLength] changes nothing. *)
Lemma writeRaw_eq (tag : Z) (v : GoValue DlmsData) (dl rv : list Z) :
  writeRaw tag v dl rv
  = Returns (byte tag :: dl ++ rv, mkDlmsData tag v rv (byte tag :: dl ++ rv)).
Proof.
  destruct (writeRaw tag v dl rv) as [[b d'] | p] eqn:H.
  - apply writeRaw_inv in H as [-> ->]. reflexivity.
  - unfold writeRaw in H. discriminate.
Qed.

Lemma orPanic_inv {A} (r : list Z * option error) (k : list Z -> Outcome A) (x : A) :
  orPanic r k = Returns x -> exists rv, r = (rv, None) /\ k rv = Returns x.
Proof.
  destruct r as [rv [e |]]; simpl; [discriminate | eauto].
Qed.

Lemma bind_inv {A B} (m : Outcome A) (k : A -> Outcome B) (x : B) :
  bind m k = Returns x -> exists a, m = Returns a /\ k a = Returns x.
Proof.
  destruct m as [a | p]; simpl; [eauto | discriminate].
Qed.

(** Takes a hypothesis [Encode enc d = Returns _], [d] a constructor
    applied to a known value, through the switch down to the one
    [writeRaw] that returned. *)
Ltac encode_inv H :=
  cbn [Encode Value Tag rawValue] in H;
  repeat match type of H with
         | (if ?c then _ else _) = _ => destruct c eqn:?
         end;
  try discriminate H;
  repeat match type of H with
         | bind _ _ = Returns _ =>
             let a := fresh "a" in
             let Ha := fresh "Ha" in
             apply bind_inv in H as [a [Ha H]]
         | orPanic _ _ = Returns _ =>
             let rv := fresh "rv" in
             let Hrv := fresh "Hrv" in
             apply orPanic_inv in H as [rv [Hrv H]]
         end;
  apply writeRaw_inv in H as [? ?]; subst.

(** Settles the tests of the switch in the goal from what is known of
    the tag. *)
Ltac tag_tests :=
  repeat match goal with
         | Hc : (_ =? _) = _ |- _ => rewrite Hc
         end;
  repeat match goal with
         | Hc : (?t =? _) = true |- _ => is_var t; apply Z.eqb_eq in Hc; subst t
         end;
  cbn [Z.eqb Pos.eqb orb andb TagNull TagArray TagStructure TagBoolean
         TagBitString TagDoubleLong TagDoubleLongUnsigned TagFloatingPoint
         TagOctetString TagVisibleString TagUTF8String TagBCD TagInteger
         TagLong TagUnsigned TagLongUnsigned TagCompactArray TagLong64
         TagLong64Unsigned TagEnum TagFloat32 TagFloat64 TagDateTime TagDate
         TagTime TagDontCare].

Ltac rewrite_results :=
  repeat match goal with
         | Hx : _ = (_, None) |- _ => rewrite Hx
         end.

(** Closes a goal in which the tag is said to be one it is known not to
    be. *)
Ltac absurd_tag :=
  subst;
  solve [ match goal with
          | Hc : (_ =? _) = false |- _ => vm_compute in Hc; discriminate Hc
          end
        | match goal with
          | E : @eq Z _ _ |- _ => vm_compute in E; discriminate E
          end ].

(** X11.  What [Encode] returns is what it leaves for [Raw]: the byte of
    the tag, the length field of the case of the tag (none for a tag
    without one), and the bytes it leaves for [RawValue].  These are the
    bytes the encoder of the case returned, the encodings of the elements
    for an array or structure, one zero byte for TagNull and TagDontCare,
    and what [rawValue] held under a tag without a case.  The tag is left
    as it was. *)
Theorem Encode_leaves_raw (d d' : DlmsData) (b : list Z) :
  Encode enc d = Returns (b, d') ->
  Raw d' = b
  /\ Tag d' = Tag d
  /\ b = byte (Tag d)
         :: lengthField enc (Tag d) (Value d) (RawValue d') ++ RawValue d'
  /\ (forall r, uncheckedCall enc (Tag d) (Value d) = Some r ->
      RawValue d' = fst r)
  /\ (forall r, checkedCall enc (Tag d) (Value d) = Some r ->
      r = (RawValue d', None))
  /\ (forall data,
      Value d = VSlice data -> Tag d = TagArray \/ Tag d = TagStructure ->
      exists r,
        EncodeArray (Encode enc) data = Returns r
        /\ RawValue d' = fst (fst r)
        /\ Value d' = VSlice (snd r)
        /\ snd (EncodeLength enc (len data)) = None)
  /\ (Tag d = TagNull \/ Tag d = TagDontCare -> RawValue d' = [0])
  /\ (isDeclaredTag (Tag d) = false -> RawValue d' = RawValue d).
Proof.
  destruct d as [tag v rv r0]. intros H.
  destruct v; try discriminate H; encode_inv H;
    cbn [Raw RawValue Tag Value rawValue raw];
    (split; [reflexivity |]); (split; [reflexivity |]);
    (split; [cbn [lengthField]; tag_tests; rewrite_results; reflexivity |]);
    (split; [intros r; cbn [uncheckedCall]; tag_tests; intros Hr;
             try discriminate Hr; injection Hr as <-; reflexivity |]);
    (split; [intros r; cbn [checkedCall]; tag_tests; intros Hr;
             try discriminate Hr; injection Hr as <-; assumption |]);
    (split; [intros ds E HT; try discriminate E; injection E as <-;
             tag_tests;
             solve [ eexists; repeat apply conj;
                     [eassumption | reflexivity | reflexivity
                      | rewrite_results; reflexivity]
                   | destruct HT; absurd_tag ] |]);
    (split; [intros E; tag_tests; try reflexivity; destruct E; absurd_tag |]);
    unfold isDeclaredTag, declaredTags, typedTags; cbn [existsb];
    tag_tests; intros E; try discriminate E; reflexivity.
Qed.

(** Induction on a value tree: a property that holds of every value
    whose elements, if it is a slice, have it, holds of all values. *)
Lemma DlmsData_tree_ind (P : DlmsData -> Prop) :
  (forall tag data rv r0, Forall P data -> P (mkDlmsData tag (VSlice data) rv r0)) ->
  (forall tag v rv r0, (forall data, v <> VSlice data) -> P (mkDlmsData tag v rv r0)) ->
  forall d, P d.
Proof.
  intros Hs Ho. fix IH 1. intros [tag v rv r0].
  destruct v as [| data | | | | | | | | | | | | | |];
    try (apply Ho; intros data'; discriminate).
  apply Hs. induction data as [| x data IHdata]; constructor.
  - apply IH.
  - exact IHdata.
Qed.

(** Encoding again the elements that [EncodeArray] left gives the same
    bytes and leaves them as they are. *)
Lemma EncodeArray_again (data : list DlmsData) :
  Forall (fun d => forall d' b, Encode enc d = Returns (b, d') ->
                                Encode enc d' = Returns (b, d')) data ->
  forall r data',
    EncodeArray (Encode enc) data = Returns (r, data') ->
    EncodeArray (Encode enc) data' = Returns (r, data')
    /\ length data' = length data.
Proof.
  induction 1 as [| d data Hd Hdata IH]; intros r data' H.
  - simpl in H. injection H as <- <-. split; reflexivity.
  - simpl in H.
    apply bind_inv in H as [[b d'] [Hb H]].
    apply bind_inv in H as [[rs datas] [Hrs H]].
    injection H as <- <-. simpl.
    destruct (IH rs datas Hrs) as [IH1 IH2].
    rewrite (Hd d' b Hb). simpl. rewrite IH1. simpl.
    split; [reflexivity | congruence].
Qed.

(** X12.  [Encode] is stable: on the value it left, a second call returns
    the same bytes and leaves the value as it is. *)
Theorem Encode_again (d d' : DlmsData) (b : list Z) :
  Encode enc d = Returns (b, d') -> Encode enc d' = Returns (b, d').
Proof.
  revert d' b. induction d as [tag data rv r0 IH | tag v rv r0 Hv]
    using DlmsData_tree_ind; intros d' b H.
  - encode_inv H;
      try (cbn [Encode Value Tag rawValue];
           repeat match goal with
                  | Hc : (_ =? _) = _ |- _ => rewrite Hc; clear Hc
                  end;
           rewrite ?writeRaw_eq; reflexivity);
      destruct a as [r datas];
      destruct (EncodeArray_again data IH r datas Ha) as [E L];
      cbn [Encode Value Tag rawValue fst snd];
      repeat match goal with
             | Hc : (_ =? _) = _ |- _ => rewrite Hc; clear Hc
             end;
      rewrite E; cbn [bind fst snd];
      unfold len; rewrite L; fold (len data); rewrite Hrv; cbn [orPanic];
      rewrite ?writeRaw_eq; reflexivity.
  - destruct v; try discriminate H; try (exfalso; eapply Hv; reflexivity);
      encode_inv H;
      cbn [Encode Value Tag rawValue];
      repeat match goal with
             | Hc : (_ =? _) = _ |- _ => rewrite Hc; clear Hc
             end;
      repeat (match goal with
              | Hx : _ = (_, None) |- _ => rewrite Hx; clear Hx
              end; cbn [orPanic]);
      rewrite ?writeRaw_eq; reflexivity.
Qed.

(** X13.  [Encode] discards the error of the encoder of a fixed-width
    value (boolean, integers, enum, floats): it returns the tag byte and
    whatever bytes the encoder returned, error or not.  The error of the
    encoder of a bit string, a string, a date or a time makes it panic
    with that error. *)
Theorem Encode_encoder_errors (d : DlmsData) :
  (forall rv err,
     uncheckedCall enc (Tag d) (Value d) = Some (rv, err) ->
     Encode enc d
     = Returns (byte (Tag d) :: rv,
                mkDlmsData (Tag d) (Value d) rv (byte (Tag d) :: rv)))
  /\ (forall rv e,
     checkedCall enc (Tag d) (Value d) = Some (rv, Some e) ->
     Encode enc d = Panics (PanicError e)).
Proof.
  destruct d as [tag v rv0 r0]. cbn [Tag Value]. split; intros rv e H.
  - destruct v; cbn [uncheckedCall] in H; try discriminate H;
      repeat match type of H with
             | (if ?c then _ else _) = _ => destruct c eqn:?
             end;
      try discriminate H; injection H as H;
      repeat match goal with
             | Hc : (_ || _) = true |- _ => apply orb_true_iff in Hc as [Hc | Hc]
             | Hc : (tag =? _) = true |- _ => apply Z.eqb_eq in Hc; subst tag
             end;
      cbn; rewrite H; reflexivity.
  - destruct v; cbn [checkedCall] in H; try discriminate H;
      repeat match type of H with
             | (if ?c then _ else _) = _ => destruct c eqn:?
             end;
      try discriminate H; injection H as H;
      repeat match goal with
             | Hc : (_ || _) = true |- _ => apply orb_true_iff in Hc as [Hc | Hc]
             | Hc : (tag =? _) = true |- _ => apply Z.eqb_eq in Hc; subst tag
             end;
      cbn; rewrite H; reflexivity.
Qed.

(** X14.  Under TagDateTime, TagDate and TagTime a string is encoded as
    the time [time.Parse] returns for it under the layout of the tag; the
    error of [time.Parse] is not looked at. *)
Theorem Encode_time_string (tag : Z) (layout v : string) (rv r0 : list Z) :
  timeLayout tag = Some layout ->
  returned (Encode enc (mkDlmsData tag (VString v) rv r0))
  = returned (Encode enc
                (mkDlmsData tag (VTime (fst (timeParse enc layout v))) rv r0)).
Proof.
  unfold timeLayout. intros H.
  repeat match type of H with
         | (if ?c then _ else _) = _ => destruct c eqn:?
         end;
    try discriminate H; injection H as <-;
    repeat match goal with
           | Hc : (tag =? _) = true |- _ => apply Z.eqb_eq in Hc; subst tag
           end;
    cbn;
    match goal with
    | |- context [orPanic ?r _] => destruct r as [rv' [e |]]
    end; reflexivity.
Qed.

(** When every element encodes, [EncodeArray] returns the encodings one
    after the other. *)
Lemma EncodeArray_concat (data : list DlmsData) (bs : list (list Z)) :
  Forall2 (fun d b => returned (Encode enc d) = Returns b) data bs ->
  exists data',
    EncodeArray (Encode enc) data = Returns ((concat bs, None), data').
Proof.
  induction 1 as [| d b data bs Hd Hdata [data' IH]].
  - eexists. reflexivity.
  - simpl. unfold returned in Hd.
    destruct (Encode enc d) as [[b0 d'] | p]; simpl in Hd; [| discriminate].
    injection Hd as ->. simpl. rewrite IH. simpl. eexists. reflexivity.
Qed.

(** The first element that panics stops [EncodeArray]. *)
Lemma EncodeArray_panics (before after : list DlmsData) (d : DlmsData)
    (bs : list (list Z)) (p : PanicValue (GoValue DlmsData)) :
  Forall2 (fun d b => returned (Encode enc d) = Returns b) before bs ->
  Encode enc d = Panics p ->
  EncodeArray (Encode enc) (before ++ d :: after) = Panics p.
Proof.
  induction 1 as [| d0 b before bs Hd Hbefore IH]; intros Hp.
  - simpl. rewrite Hp. reflexivity.
  - simpl. unfold returned in Hd.
    destruct (Encode enc d0) as [[b0 d'] | p0]; simpl in Hd; [| discriminate].
    simpl. rewrite (IH Hp). reflexivity.
Qed.

(** X15.  An ARRAY and a STRUCTURE are encoded alike: the tag byte, the
    number of elements as [EncodeLength] writes it, and the encodings of
    the elements in order.  If an element panics, after elements that
    encode, [Encode] panics with the panic of that element. *)
Theorem Encode_sequence (tag : Z) (rv r0 : list Z) :
  tag = TagArray \/ tag = TagStructure ->
  (forall data bs dl,
     Forall2 (fun d b => returned (Encode enc d) = Returns b) data bs ->
     EncodeLength enc (len data) = (dl, None) ->
     returned (Encode enc (mkDlmsData tag (VSlice data) rv r0))
     = Returns (byte tag :: dl ++ concat bs))
  /\ (forall before d after bs p,
     Forall2 (fun d b => returned (Encode enc d) = Returns b) before bs ->
     Encode enc d = Panics p ->
     Encode enc (mkDlmsData tag (VSlice (before ++ d :: after)) rv r0)
     = Panics p).
Proof.
  intros HT. split.
  - intros data bs dl HF HL.
    destruct (EncodeArray_concat data bs HF) as [data' E].
    destruct HT; subst tag;
      cbn [Encode Value Tag rawValue Z.eqb Pos.eqb TagArray TagNull TagStructure];
      rewrite E; cbn [bind fst snd]; rewrite HL; cbn [orPanic];
      rewrite writeRaw_eq; reflexivity.
  - intros before d after bs p HF Hp.
    pose proof (EncodeArray_panics before after d bs p HF Hp) as E.
    destruct HT; subst tag;
      cbn [Encode Value Tag rawValue Z.eqb Pos.eqb TagArray TagNull TagStructure];
      rewrite E; reflexivity.
Qed.

End EncodeState.

(** X12 on the parameter of the entry descriptor from 0 to 5. *)
Lemma Encode_again_witness :
  exists b d',
    Axdr.Encode (Axdr.specEncoders Axdr.parseNothing) (Dlms.entryParameter 0 5 0 0)
    = Axdr.Returns (b, d')
    /\ Axdr.Encode (Axdr.specEncoders Axdr.parseNothing) d' = Axdr.Returns (b, d').
Proof.
  eexists. eexists. split.
  - reflexivity.
  - apply (Encode_again (Axdr.specEncoders Axdr.parseNothing)
             (Dlms.entryParameter 0 5 0 0)).
    reflexivity.
Defined.

(** X11 on the same parameter: 18 bytes, the first the tag of a
    STRUCTURE. *)
Lemma Encode_leaves_raw_witness :
  exists b d',
    Axdr.Encode (Axdr.specEncoders Axdr.parseNothing) (Dlms.entryParameter 0 5 0 0)
    = Axdr.Returns (b, d')
    /\ Axdr.Raw d' = b /\ Axdr.Tag d' = Axdr.TagStructure /\ length b = 18%nat.
Proof.
  eexists. eexists.
  pose proof (Encode_leaves_raw (Axdr.specEncoders Axdr.parseNothing)
                (Dlms.entryParameter 0 5 0 0) _ _ eq_refl) as [H1 [H2 _]].
  split; [reflexivity | split; [exact H1 | split; [exact H2 | reflexivity]]].
Defined.

(** X13 with encoders that fail: the boolean is encoded, the bit string
    panics. *)
Lemma Encode_encoder_errors_witness :
  Axdr.Encode Axdr.failingBoolean (Axdr.newDlmsData Axdr.TagBoolean (Axdr.VBool true))
  = Axdr.Returns ([0x03; 0x01],
      Axdr.mkDlmsData Axdr.TagBoolean (Axdr.VBool true) [0x01] [0x03; 0x01])
  /\ Axdr.Encode Axdr.failingBoolean
       (Axdr.newDlmsData Axdr.TagBitString (Axdr.VString "1110"))
     = Axdr.Panics (PanicError (errorString "bad bit string")).
Proof.
  split.
  - exact (proj1 (Encode_encoder_errors Axdr.failingBoolean
                    (Axdr.newDlmsData Axdr.TagBoolean (Axdr.VBool true)))
             [0x01] (Some (errorString "bad boolean")) eq_refl).
  - exact (proj2 (Encode_encoder_errors Axdr.failingBoolean
                    (Axdr.newDlmsData Axdr.TagBitString (Axdr.VString "1110")))
             [] (errorString "bad bit string") eq_refl).
Defined.

(** X14 on a date. *)
Lemma Encode_time_string_witness :
  Axdr.returned (Axdr.Encode (Axdr.specEncoders Axdr.parseNothing)
    (Axdr.newDlmsData Axdr.TagDate (Axdr.VString "2020-01-01")))
  = Axdr.returned (Axdr.Encode (Axdr.specEncoders Axdr.parseNothing)
    (Axdr.newDlmsData Axdr.TagDate
       (Axdr.VTime (fst (Axdr.parseNothing "2006-01-02" "2020-01-01"))))).
Proof.
  exact (Encode_time_string (Axdr.specEncoders Axdr.parseNothing) Axdr.TagDate
           "2006-01-02" "2020-01-01" [] [] eq_refl).
Defined.

(** X15 on an array of a boolean and a value without [Value]: the panic
    of the second element is the panic of the array. *)
Lemma Encode_sequence_witness :
  Axdr.Encode (Axdr.specEncoders Axdr.parseNothing)
    (Axdr.newDlmsData Axdr.TagArray
       (Axdr.VSlice ([Axdr.newDlmsData Axdr.TagBoolean (Axdr.VBool true)]
                       ++ Axdr.newDlmsData Axdr.TagLong Axdr.VNil :: [])))
  = Axdr.Panics (PanicString "Value to encode cannot be nil").
Proof.
  apply (proj2 (Encode_sequence (Axdr.specEncoders Axdr.parseNothing)
                  Axdr.TagArray [] [] (or_introl eq_refl))
           [Axdr.newDlmsData Axdr.TagBoolean (Axdr.VBool true)]
           (Axdr.newDlmsData Axdr.TagLong Axdr.VNil) [] [[0x03; 0xFF]]).
  - repeat constructor.
  - reflexivity.
Defined.

(** ** The tables of tag names *)

Section TagTables.

Import Axdr.

Lemma dataTagMapString_entries (name : string) (tag : Z) :
  dataTagMapString !! name = Some tag <-> (name, tag) ∈ dataTagEntries.
Proof.
  change dataTagMapString with (list_to_map dataTagEntries : gmap string Z).
  symmetry. apply elem_of_list_to_map.
  apply (bool_decide_unpack _). vm_compute. exact I.
Qed.

Lemma dataTagMapInt_entries (name : string) (tag : Z) :
  dataTagMapInt !! tag = Some name <-> (name, tag) ∈ dataTagEntries.
Proof.
  change dataTagMapInt
    with (list_to_map (prod_swap <$> dataTagEntries) : gmap Z string).
  rewrite <- elem_of_list_to_map
    by (apply (bool_decide_unpack _); vm_compute; exact I).
  rewrite list_elem_of_fmap. split.
  - intros [[n t] [E H]]. simpl in E. injection E as -> ->. exact H.
  - intros H. exists (name, tag). split; [reflexivity | exact H].
Qed.

(** X16.  The two tables of tag names are inverse to each other, and the
    tags they name are the tags the switch of [Encode] has a case for. *)
Theorem dataTag_tables (name : string) (tag : Z) :
  (dataTagMapString !! name = Some tag <-> dataTagMapInt !! tag = Some name)
  /\ (isDeclaredTag tag = true <-> is_Some (dataTagMapInt !! tag)).
Proof.
  split.
  - rewrite dataTagMapString_entries, dataTagMapInt_entries. reflexivity.
  - assert (A : Forall (fun t => is_Some (dataTagMapInt !! t)) declaredTags)
      by (apply (bool_decide_unpack _); vm_compute; exact I).
    assert (B : Forall (fun e => isDeclaredTag (snd e) = true) dataTagEntries)
      by (apply (bool_decide_unpack _); vm_compute; exact I).
    split.
    + intros H. unfold isDeclaredTag in H.
      apply existsb_exists in H as [t [Hin Heq]].
      apply Z.eqb_eq in Heq. subst t.
      rewrite Forall_forall in A. apply A. apply list_elem_of_In. exact Hin.
    + intros [n H]. apply dataTagMapInt_entries in H.
      rewrite Forall_forall in B. exact (B (n, tag) H).
Qed.

End TagTables.

(** ** More on attribute descriptors *)

(** X17.  Every slice of at least nine bytes decodes as an attribute
    descriptor: the caller's slice moves on by exactly nine bytes, and
    encoding the descriptor gives those nine bytes back. *)
Theorem DecodeAttributeDescriptor_first_nine (ori : list Z) :
  9 <= len ori ->
  Forall (fun b => 0 <= b < 256) ori ->
  exists ad,
    Dlms.DecodeAttributeDescriptor ori = Axdr.Returns ((ad, None), drop 9 ori)
    /\ fst (Dlms.AttributeDescriptor_Encode ad) = take 9 ori.
Proof.
  intros HL HB.
  destruct ori as [| c1 [| c2 [| a1 [| a2 [| a3 [| a4 [| a5 [| a6 [| i ori]]]]]]]]];
    try (unfold len in HL; simpl in HL; lia).
  repeat match goal with
         | H : Forall _ (_ :: _) |- _ =>
             let Hx := fresh "Hb" in apply Forall_cons in H as [Hx H]
         end.
  unfold Dlms.DecodeAttributeDescriptor.
  match goal with
  | |- context [len ?l <? 9] =>
      destruct (Z.ltb_spec (len l) 9) as [L | L]; [lia | clear L]
  end.
  unfold Axdr.DecodeLongUnsigned.
  match goal with
  | |- context [len ?l <? 2] =>
      destruct (Z.ltb_spec (len l) 2) as [L | L];
        [unfold len in L; simpl length in L; lia | clear L]
  end.
  cbn [take drop Dlms.DecodeObis length].
  replace (S (S (S (S (S (S (S (S (S (length ori))))))))) - length ori)%nat
    with 9%nat by lia.
  eexists. split; [reflexivity |].
  unfold Dlms.AttributeDescriptor_Encode, Dlms.Obis_Bytes, PutUint16, uint16,
    Axdr.fromBigEndian, Axdr.toSigned, byte.
  cbn [fst app fold_left Dlms.ClassID Dlms.InstanceID Dlms.AttributeID
         Dlms.obisA Dlms.obisB Dlms.obisC Dlms.obisD Dlms.obisE Dlms.obisF].
  rewrite !(Z.mod_small a1), !(Z.mod_small a2), !(Z.mod_small a3),
    !(Z.mod_small a4), !(Z.mod_small a5), !(Z.mod_small a6), !(Z.mod_small i)
    by lia.
  rewrite (Z.mod_small ((0 * 256 + c1) * 256 + c2) 65536) by lia.
  replace (((0 * 256 + c1) * 256 + c2) / 256) with c1
    by (apply (Z.div_unique _ 256 c1 c2); lia).
  replace (((0 * 256 + c1) * 256 + c2) mod 256) with c2
    by (apply (Z.mod_unique_pos _ 256 c1 c2); lia).
  rewrite (Z.mod_small c1) by lia.
  change (2 ^ (8 - 1)) with 128. change (2 ^ 8) with 256.
  destruct (Z.ltb_spec i 128) as [L | L].
  - rewrite (Z.mod_small i) by lia. reflexivity.
  - replace ((i - 256) mod 256) with i
      by (apply (Z.mod_unique_pos _ 256 (-1) i); lia).
    reflexivity.
Qed.

(** X17 on a descriptor with a negative attribute id and a byte after it. *)
Lemma DecodeAttributeDescriptor_first_nine_witness :
  exists ad,
    Dlms.DecodeAttributeDescriptor [0; 8; 0; 0; 1; 0; 0; 255; 254; 7]
    = Axdr.Returns ((ad, None), [7])
    /\ fst (Dlms.AttributeDescriptor_Encode ad) = [0; 8; 0; 0; 1; 0; 0; 255; 254].
Proof.
  apply (DecodeAttributeDescriptor_first_nine [0; 8; 0; 0; 1; 0; 0; 255; 254; 7]).
  - vm_compute. discriminate.
  - repeat constructor; lia.
Defined.

(** ** More on the bulk Set *)

Section MoreSetFacts.

Import DlmsClient.

(** X18.  The two versions of [SetRequest] end alike (the texts of their
    messages apart).  They return nil in one case only: the descriptor is
    not nil, the value is a [*axdr.DlmsData] that is not nil or a value
    that marshals, the exchange returns no error, and the reply is a
    Set-Response-Normal whose result is success.  They panic in one case
    only: the descriptor is not nil and the value is a nil
    [*axdr.DlmsData]. *)
Theorem SetRequest_versions (att : option Dlms.AttributeDescriptor) (f : Field) :
  SetRequest_dlmsclient att f = SetRequest att f
  /\ (SetRequest att f = Axdr.Returns None
      <-> att <> None
          /\ (fieldIsDlmsData f = true /\ fieldIsNil f = false
              \/ fieldIsDlmsData f = false /\ fieldMarshalError f = None)
          /\ fieldReply f = (SetResponseNormal TagAccSuccess, None))
  /\ (forall p, SetRequest att f = Axdr.Panics p
      <-> p = nilDereference
          /\ att <> None /\ fieldIsDlmsData f = true /\ fieldIsNil f = true).
Proof.
  unfold SetRequest_dlmsclient, SetRequest, setRequest.
  destruct att as [a |].
  - destruct (fieldIsDlmsData f), (fieldIsNil f), (fieldMarshalError f) as [m |],
      (fieldReply f) as [[r | n] [e |]]; cbn;
      try destruct (Z.eqb_spec r TagAccSuccess) as [E | E]; cbn;
      (split; [reflexivity |]);
      (split; [| intros p]);
      (split; [intros H | intros H]);
      try discriminate H;
      try (injection H as <-);
      try (subst r);
      repeat match goal with
             | H : _ /\ _ |- _ => destruct H
             | H : _ \/ _ |- _ => destruct H
             end;
      try discriminate; try congruence;
      repeat apply conj; try reflexivity; try discriminate; auto.
  - split; [reflexivity |].
    split; [| intros p]; (split; [discriminate | intros H]);
      repeat match goal with
             | H : _ /\ _ |- _ => destruct H
             end; congruence.
Qed.

(** Fields that are passed over change nothing. *)
Lemma setFields_skipped (flag : bool) (fields : list Field)
    (errSet : option error) (done failed : bool) :
  forallb isSkipped fields = true ->
  setFields flag fields errSet done failed
  = Axdr.Returns (if failed && done
                  then Some (dlmsError ErrorSetPartial) else errSet).
Proof.
  induction fields as [| f fields IH]; intros H.
  - simpl. destruct (failed && done); reflexivity.
  - simpl in H. apply andb_true_iff in H as [Hf H].
    rewrite setFields_step. unfold isSkipped in Hf.
    destruct (fieldOutcome f); try discriminate. exact (IH H).
Qed.

Lemma setFields_nil_iff (flag : bool) (fields : list Field)
    (errSet : option error) (done failed : bool) :
  (failed = true -> errSet <> None) ->
  setFields flag fields errSet done failed = Axdr.Returns None
  <-> forallb isQuiet fields = true /\ errSet = None.
Proof.
  revert errSet done failed.
  induction fields as [| f fields IH]; intros errSet done failed HI.
  - simpl. destruct failed; simpl.
    + specialize (HI eq_refl). destruct done; split; intros H;
        try discriminate H; try congruence; destruct H; congruence.
    + split; [intros H; split; congruence | intros [_ ->]; reflexivity].
  - rewrite setFields_step. simpl forallb. unfold isQuiet at 1.
    destruct (fieldOutcome f) as [| e | | e | p]; simpl.
    + apply IH. exact HI.
    + split; [discriminate | intros [H _]; discriminate].
    + apply IH. exact HI.
    + destruct (hasCode e ErrorSetRejected && flag).
      * rewrite IH by (intros _; discriminate).
        split; [intros [_ H]; discriminate | intros [H _]; discriminate].
      * destruct done; split; try discriminate; intros [H _]; discriminate.
    + split; [discriminate | intros [H _]; discriminate].
Qed.

(** X19.  [SetRequestWithStructOfElements] returns nil exactly when every
    field was either passed over or set: in neither mode does a field that
    fails, or one on which [setRequest] panics, go unreported. *)
Theorem SetRequestWithStructOfElements_nil_iff (flag : bool) (fields : list Field) :
  SetRequestWithStructOfElements flag (Struct fields) = Axdr.Returns None
  <-> forallb isQuiet fields = true.
Proof.
  unfold SetRequestWithStructOfElements.
  rewrite setFields_nil_iff by discriminate. tauto.
Qed.

(** The message of a [dlms.Error] not being modelled, an error of code
    [ErrorSetRejected] is [dlmsError ErrorSetRejected]. *)
Lemma hasCode_rejected (err : error) :
  hasCode err ErrorSetRejected = true -> err = dlmsError ErrorSetRejected.
Proof.
  destruct err as [m | k | c]; try discriminate.
  destruct c; try discriminate. reflexivity.
Qed.

(** As long as no Set succeeds, a rejection is the result. *)
Lemma setFields_none_done (flag : bool) (fields : list Field)
    (errSet : option error) (failed : bool) :
  forallb (fun g => isSkipped g || isRejected g) fields = true ->
  setFields flag fields errSet false failed
  = Axdr.Returns (if existsb isRejected fields
                  then Some (dlmsError ErrorSetRejected) else errSet).
Proof.
  revert errSet failed.
  induction fields as [| g fields IH]; intros errSet failed H.
  - simpl. rewrite andb_false_r. reflexivity.
  - simpl in H. apply andb_true_iff in H as [Hg H].
    rewrite setFields_step. simpl existsb.
    unfold isSkipped, isRejected in *.
    destruct (fieldOutcome g) as [| e | | e | p]; simpl in Hg;
      try discriminate.
    + apply IH. exact H.
    + rewrite Hg. pose proof (hasCode_rejected e Hg) as ->.
      destruct flag; simpl.
      * rewrite (IH _ _ H). destruct (existsb _ fields); reflexivity.
      * reflexivity.
Qed.

(** X20.  When no Set succeeds, rejections are not reported as a partial
    Set: in both modes, if every field is passed over or rejected by the
    meter, and one at least is rejected, the result is the error of code
    [ErrorSetRejected], not [ErrorSetPartial]. *)
Theorem SetRequestWithStructOfElements_all_rejected
    (flag : bool) (fields : list Field) :
  forallb (fun g => isSkipped g || isRejected g) fields = true ->
  existsb isRejected fields = true ->
  SetRequestWithStructOfElements flag (Struct fields)
  = Axdr.Returns (Some (dlmsError ErrorSetRejected)).
Proof.
  intros HA HR. unfold SetRequestWithStructOfElements.
  rewrite (setFields_none_done flag fields None false HA), HR. reflexivity.
Qed.

(** [setRequest] panics on one kind of field only. *)
Lemma fieldOutcome_panicked (f : Field)
    (p : PanicValue (Axdr.GoValue Axdr.DlmsData)) :
  fieldOutcome f = SetPanicked p
  <-> p = nilDereference
      /\ (exists ad, fieldDescriptor f = (Some ad, None))
      /\ fieldIsPointer f = false
      /\ fieldIsDlmsData f = true
      /\ fieldIsNil f = true.
Proof.
  unfold fieldOutcome, setRequest.
  destruct (fieldDescriptor f) as [[ad |] [e |]];
    try (split; [discriminate | intros [_ [[ad' H] _]]; discriminate]).
  destruct (fieldIsPointer f), (fieldIsNil f), (fieldIsDlmsData f),
    (fieldMarshalError f) as [m |], (fieldReply f) as [[r | n] [e |]]; cbn;
    try destruct (r =? TagAccSuccess); cbn;
    (split; [intros H; try discriminate H; injection H as <-;
             repeat apply conj; eauto
            | intros [-> [_ [H1 [H2 H3]]]];
              try discriminate; reflexivity]).
Qed.



Lemma requestSent_quiet (f : Field) :
  isQuiet f = true -> requestSent f = isDone f.
Proof.
  unfold isQuiet, isDone, requestSent, reachesExchange, fieldOutcome, setRequest.
  destruct (fieldDescriptor f) as [[ad |] [e |]]; try reflexivity;
    try discriminate.
  destruct (fieldIsPointer f && fieldIsNil f); [reflexivity |].
  destruct (fieldIsDlmsData f), (fieldIsNil f), (fieldMarshalError f),
    (fieldReply f) as [[r | n] [e' |]]; cbn;
    try reflexivity; try discriminate;
    destruct (negb (r =? TagAccSuccess)); try reflexivity; discriminate.
Qed.

(** Nothing is sent for a field whose descriptor fails, nor for one on
    which [setRequest] panics. *)
Lemma requestSent_stopped (f : Field) :
  (exists err, fieldOutcome f = DescriptorFailed err)
  \/ (exists p, fieldOutcome f = SetPanicked p) ->
  requestSent f = false.
Proof.
  intros [[err H] | [p H]].
  - unfold requestSent, fieldOutcome in *.
    destruct (fieldDescriptor f) as [[ad |] [e |]]; try reflexivity;
      try discriminate.
    destruct (fieldIsPointer f && fieldIsNil f); [discriminate |].
    destruct (setRequest (Some ad) f) as [[e |] | q]; discriminate.
  - apply fieldOutcome_panicked in H as [_ [[ad Hd] [Hp [Hdt Hn]]]].
    unfold requestSent, reachesExchange. rewrite Hd, Hdt, Hn.
    apply andb_false_r.
Qed.

Lemma sentFields_step (flag : bool) (f : Field) (rest : list Field) :
  sentFields flag (f :: rest) =
    match fieldOutcome f with
    | Skipped => sentFields flag rest
    | DescriptorFailed _ => []
    | SetDone => (if requestSent f then [f] else []) ++ sentFields flag rest
    | SetFailed err =>
        if hasCode err ErrorSetRejected && flag
        then (if requestSent f then [f] else []) ++ sentFields flag rest
        else if requestSent f then [f] else []
    | SetPanicked _ => []
    end.
Proof.
  destruct (fieldOutcome f) as [| e | | e | p] eqn:O.
  5: { pose proof (requestSent_stopped f (or_intror (ex_intro _ p O))) as R.
       apply fieldOutcome_panicked in O as [_ [[ad Hd] [Hp [Hdt Hn]]]].
       cbn [sentFields]. unfold setRequest, reachesExchange.
       rewrite Hd, Hp, Hdt, Hn. reflexivity. }
  all: unfold fieldOutcome, requestSent in *; cbn [sentFields];
    destruct (fieldDescriptor f) as [[ad |] [e0 |]]; try discriminate O;
    try reflexivity;
    destruct (fieldIsPointer f && fieldIsNil f); try discriminate O;
    try reflexivity;
    destruct (setRequest (Some ad) f) as [[e1 |] | q]; try discriminate O;
    try (injection O as <-); reflexivity.
Qed.

(** X21.  The Set requests that reach the meter.  With
    [continueOnSetRejected] false, they are those of the fields set before
    the first field that fails or panics, and that of this field if it got
    as far as the exchange: nothing is sent for the fields after it.  With
    [continueOnSetRejected] true, when every field is passed over, set or
    rejected, a request is sent for every field that has a descriptor, is
    not a nil pointer and marshals; and a field on which [setRequest]
    panics ends the requests. *)
Theorem sentFields_stop_or_continue :
  (forall pre f post,
     forallb isQuiet pre = true ->
     isQuiet f = false ->
     sentFields false (pre ++ f :: post)
     = List.filter isDone pre ++ (if requestSent f then [f] else []))
  /\ (forall fields,
     forallb (fun g => isQuiet g || isRejected g) fields = true ->
     sentFields true fields = List.filter requestSent fields)
  /\ (forall pre f post p,
     forallb (fun g => isQuiet g || isRejected g) pre = true ->
     fieldOutcome f = SetPanicked p ->
     sentFields true (pre ++ f :: post) = List.filter requestSent pre).
Proof.
  assert (C : forall fields rest,
     forallb (fun g => isQuiet g || isRejected g) fields = true ->
     sentFields true (fields ++ rest)
     = List.filter requestSent fields ++ sentFields true rest).
  { intros fields rest H. induction fields as [| g fields IH]; [reflexivity |].
    simpl in H. apply andb_true_iff in H as [Hg H].
    change ((g :: fields) ++ rest) with (g :: (fields ++ rest)).
    rewrite sentFields_step, (IH H). simpl List.filter.
    unfold isQuiet, isRejected in Hg.
    destruct (fieldOutcome g) as [| e | | e | p] eqn:O; simpl in Hg;
      try discriminate.
    + assert (R : requestSent g = false).
      { rewrite requestSent_quiet by (unfold isQuiet; rewrite O; reflexivity).
        unfold isDone. rewrite O. reflexivity. }
      rewrite R. reflexivity.
    + destruct (requestSent g); reflexivity.
    + rewrite Hg. simpl. destruct (requestSent g); reflexivity. }
  repeat apply conj.
  - intros pre f post Hpre Hf. induction pre as [| g pre IH].
    + cbn [app List.filter]. rewrite sentFields_step. unfold isQuiet in Hf.
      destruct (fieldOutcome f) as [| e | | e | p] eqn:O; try discriminate.
      * rewrite (requestSent_stopped f) by eauto. reflexivity.
      * rewrite andb_false_r. reflexivity.
      * rewrite (requestSent_stopped f) by eauto. reflexivity.
    + simpl in Hpre. apply andb_true_iff in Hpre as [Hg Hpre].
      change ((g :: pre) ++ f :: post) with (g :: (pre ++ f :: post)).
      rewrite sentFields_step, (IH Hpre). simpl List.filter.
      pose proof (requestSent_quiet g Hg) as R.
      unfold isQuiet in Hg. unfold isDone in *.
      destruct (fieldOutcome g); try discriminate; rewrite ?R; reflexivity.
  - intros fields H. rewrite <- (app_nil_r fields) at 1.
    rewrite (C fields [] H). apply app_nil_r.
  - intros pre f post p H O.
    rewrite (C pre (f :: post) H), sentFields_step, O. apply app_nil_r.
Qed.

(** X22.  [eindirect] goes through pointers and interfaces down to a
    value that is neither, and stays there: a struct behind any number of
    pointers is set like the struct itself, and a nil pointer, like any
    value that is not a struct, is an invalid parameter. *)
Theorem eindirect_reaches_value (v : ReflectValue) (n : nat)
    (fields : list Field) (flag : bool) :
  eindirect (eindirect v) = eindirect v
  /\ (forall elem, eindirect v <> RPtr elem /\ eindirect v <> RInterface elem)
  /\ eindirect (pointerTo n v) = eindirect v
  /\ SetRequestWithStructOfElementsOf (pointerTo n (RStruct fields)) flag
     = SetRequestWithStructOfElements flag (Struct fields)
  /\ SetRequestWithStructOfElementsOf (pointerTo n RInvalid) flag
     = Axdr.Returns (Some (dlmsError ErrorInvalidParameter)).
Proof.
  assert (P : forall w, eindirect (pointerTo n w) = eindirect w)
    by (intros w; induction n as [| n IH]; [reflexivity | exact IH]).
  repeat apply conj.
  - induction v; try reflexivity; assumption.
  - intros elem. induction v; try (split; discriminate); assumption.
  - apply P.
  - unfold SetRequestWithStructOfElementsOf. rewrite P. reflexivity.
  - unfold SetRequestWithStructOfElementsOf. rewrite P. reflexivity.
Qed.

End MoreSetFacts.

(** X20 on two fields, both rejected, in the mode that goes on. *)
Lemma SetRequestWithStructOfElements_all_rejected_witness :
  DlmsClient.SetRequestWithStructOfElements true
    (DlmsClient.Struct [DlmsClient.fieldWithReply 3; DlmsClient.fieldWithReply 1])
  = Axdr.Returns (Some (dlmsError ErrorSetRejected)).
Proof.
  exact (SetRequestWithStructOfElements_all_rejected true
           [DlmsClient.fieldWithReply 3; DlmsClient.fieldWithReply 1]
           eq_refl eq_refl).
Defined.

(** X21 on a Set that fails in the transport between two that would
    succeed: the third is not sent. *)
Lemma sentFields_stop_or_continue_witness :
  DlmsClient.sentFields false
    ([DlmsClient.fieldWithReply 0]
       ++ DlmsClient.fieldWithTransportError :: [DlmsClient.fieldWithReply 0])
  = [DlmsClient.fieldWithReply 0; DlmsClient.fieldWithTransportError].
Proof.
  exact (proj1 sentFields_stop_or_continue
           [DlmsClient.fieldWithReply 0] DlmsClient.fieldWithTransportError
           [DlmsClient.fieldWithReply 0] eq_refl eq_refl).
Defined.


(** X6 on scenario 4 without its password: the error, and no bytes. *)
Lemma EncodeAARQ_error_iff_witness :
  snd (fst (Dlms.EncodeAARQ Dlms.frameOnly Dlms.scenario4NoPassword)) <> None
  /\ fst (fst (Dlms.EncodeAARQ Dlms.frameOnly Dlms.scenario4NoPassword)) = [].
Proof.
  assert (H : snd (fst (Dlms.EncodeAARQ Dlms.frameOnly Dlms.scenario4NoPassword))
              <> None) by (vm_compute; discriminate).
  split; [exact H |].
  exact (proj2 (EncodeAARQ_error_iff Dlms.frameOnly Dlms.scenario4NoPassword) H).
Defined.

(** X7 on the settings of Low authentication, given the keys and the
    counter of scenario 4. *)
Lemma EncodeAARQ_plain_ignores_keys_witness :
  fst (Dlms.EncodeAARQ Dlms.frameOnly
         (Dlms.withKeys Dlms.lowAuthenticationSettings
            (Dlms.UnicastKey (Dlms.Ciphering_ Dlms.scenario4Settings))
            (Dlms.AuthenticationKey (Dlms.Ciphering_ Dlms.scenario4Settings))
            (Dlms.DedicatedKey (Dlms.Ciphering_ Dlms.scenario4Settings))
            0x00000107))
  = fst (Dlms.EncodeAARQ Dlms.frameOnly Dlms.lowAuthenticationSettings).
Proof.
  exact (EncodeAARQ_plain_ignores_keys Dlms.frameOnly
           Dlms.lowAuthenticationSettings _ _ _ _ eq_refl).
Defined.

(** X8 on scenario 4 with the counter at [0xFFFFFFFF]. *)
Lemma EncodeAARQ_counter_wraps_witness :
  Dlms.InvocationCounter
    (Dlms.Ciphering_
       (snd (Dlms.EncodeAARQ Dlms.frameOnly
               (Dlms.withKeys Dlms.scenario4Settings
                  (Dlms.UnicastKey (Dlms.Ciphering_ Dlms.scenario4Settings))
                  [] [] 0xFFFFFFFF))))
  = 0.
Proof.
  apply (proj2 (EncodeAARQ_counter_wraps Dlms.frameOnly
                  (Dlms.withKeys Dlms.scenario4Settings
                     (Dlms.UnicastKey (Dlms.Ciphering_ Dlms.scenario4Settings))
                     [] [] 0xFFFFFFFF)
                  ltac:(vm_compute; discriminate)
                  ltac:(right; simpl; discriminate)
                  ltac:(simpl; lia))).
  reflexivity.
Defined.

(** X9 on the password of 300 bytes: the field declares 46 bytes. *)
Lemma generateAuthentication_lengths_witness :
  fst (Dlms.generateAuthentication Dlms.longPassword) !! 14%nat = Some 46
  /\ fst (Dlms.generateAuthentication Dlms.longPassword) !! 16%nat = Some 44
  /\ len (fst (Dlms.generateAuthentication Dlms.longPassword)) = 317.
Proof.
  pose proof (generateAuthentication_lengths Dlms.longPassword
                ltac:(vm_compute; discriminate)) as [H1 [_ [H2 [H3 _]]]].
  split; [rewrite H2; reflexivity | split; [rewrite H3; reflexivity |]].
  rewrite H1. reflexivity.
Defined.
